(** * configure_platform: the configuration store of [configure_platform.py]

    A shallow embedding of the FastAPI handlers ([get_config], [set_config],
    [delete_config], [batch_set_config], [batch_remove_config]), of the
    persistence functions ([load_projects], [save_projects]) and of the
    Streamlit handlers that write to the store (single add, edit, single
    delete, file based batch add and batch remove).
    The buttons that create and delete a project, [get_paginated_data] and
    the page count of the view are embedded too. [search_configs] is not:
    it filters with a regular expression ([str.contains]).

    Modelling choices, all taken from the source:
    - keys and values are strings;
    - a pandas DataFrame of this program either has the two columns
      ['key', 'value'] and a list of rows, or has no column at all
      (what [pd.DataFrame([])] builds when an empty project is loaded);
    - a Python [dict] used for a project's configuration is an insertion
      ordered association list; the dict of all projects is a [gmap];
    - [projects_data.json] is modelled by the value [json.load] gives back
      (project name to list of records), or by [None] when the file is absent;
      writing the file is assumed to succeed, so the [except] branch of
      [save_projects] is not reachable in the model;
    - handlers run in a state and exception monad over the [World]. *)

From stdpp Require Import base option list gmap strings sets pretty.

Open Scope string_scope.
Open Scope list_scope.

(** ** Data *)

(** One row of a project's DataFrame, one record of the persisted file. *)
Record Entry := mkEntry { key : string; value : string }.

#[global] Instance Entry_eq_dec : EqDecision Entry.
Proof. solve_decision. Defined.

(** The DataFrames the program builds. *)
Inductive DataFrame :=
  | NoColumns                      (* pd.DataFrame([]) *)
  | Frame (rows : list Entry).     (* columns ['key', 'value'] *)

#[global] Instance DataFrame_eq_dec : EqDecision DataFrame.
Proof. solve_decision. Defined.

(** [df.to_dict(orient='records')], also the rows for [len] and iteration. *)
Definition records (df : DataFrame) : list Entry :=
  match df with NoColumns => [] | Frame rows => rows end.

(** [df.empty] *)
Definition empty (df : DataFrame) : bool :=
  match records df with [] => true | _ => false end.

(** [pd.DataFrame(v)] for a list of records read from the file. *)
Definition DataFrame_of_records (v : list Entry) : DataFrame :=
  match v with [] => NoColumns | _ => Frame v end.

Abbreviation Store := (gmap string DataFrame).
Abbreviation FileData := (gmap string (list Entry)).

(** ** Python dictionaries, in insertion order

    [config] in the handlers is a [dict] from key to value. Python keeps the
    items in insertion order, assigning to a key that is present replaces the
    value in place, and [list(config.items())] lists the items in that order. *)

Abbreviation pydict := (list (string * string)).

(** [config.get(k)] *)
Fixpoint dict_get (d : pydict) (k : string) : option string :=
  match d with
  | [] => None
  | (k', v) :: d' => if decide (k' = k) then Some v else dict_get d' k
  end.

(** [k in config] *)
Definition dict_contains (d : pydict) (k : string) : bool :=
  match dict_get d k with Some _ => true | None => false end.

(** [config[k] = v] *)
Fixpoint dict_setitem (d : pydict) (k v : string) : pydict :=
  match d with
  | [] => [(k, v)]
  | (k', v') :: d' =>
      if decide (k' = k) then (k', v) :: d' else (k', v') :: dict_setitem d' k v
  end.

(** [del config[k]] for a key that is present; nothing to remove otherwise. *)
Fixpoint dict_delitem (d : pydict) (k : string) : pydict :=
  match d with
  | [] => []
  | (k', v') :: d' =>
      if decide (k' = k) then d' else (k', v') :: dict_delitem d' k
  end.

(** [config.pop(k, None)] *)
Definition dict_pop (d : pydict) (k : string) : option string * pydict :=
  (dict_get d k, dict_delitem d k).

(** [current_project.set_index('key').to_dict()['value']]: the rows are
    inserted into a dict one after the other. *)
Definition to_dict (rows : list Entry) : pydict :=
  foldl (λ d e, dict_setitem d (key e) (value e)) [] rows.

(** [for key, value in updates.items(): config[key] = value] *)
Definition apply_updates (config updates : pydict) : pydict :=
  foldl (λ config kv, dict_setitem config kv.1 kv.2) config updates.

(** [pd.DataFrame(list(config.items()), columns=['key', 'value'])] *)
Definition rows_of_items (d : pydict) : list Entry :=
  (λ kv, mkEntry kv.1 kv.2) <$> d.

Definition DataFrame_of_items (d : pydict) : DataFrame :=
  Frame (rows_of_items d).

(** ** Exceptions, values and the world *)

Inductive Exn :=
  | HTTPException (status_code : nat) (detail : string)
  | KeyError (k : string)
  | FileNotFoundError.

(** What the handlers put in the [value] field of a response
    ([Optional[Any]]): [None], a string, or the pandas Series that
    [.loc] gives when several rows carry the key. *)
Inductive PyValue :=
  | PyNone
  | PyStr (s : string)
  | PySeries (vs : list string).

(** [file]: the parsed content of [projects_data.json], [None] when the file
    is absent. [session_projects] and [current_project]: the Streamlit session
    state. [saves]: ghost counter of the calls of [save_projects]. *)
Record World := mkWorld {
  file : option FileData;
  session_projects : Store;
  current_project : option string;
  saves : nat
}.

Definition M (A : Type) : Type := World → (Exn + A) * World.

#[global] Instance M_ret : MRet M := λ A x w, (inr x, w).
#[global] Instance M_bind : MBind M := λ A B f m w,
  match m w with
  | (inl e, w') => (inl e, w')
  | (inr x, w') => f x w'
  end.

Definition raise {A} (e : Exn) : M A := λ w, (inl e, w).

(** Run [m]; an exception is handed to [h] ([try ... except Exception]). *)
Definition try_except {A} (m : M A) (h : Exn → M A) : M A := λ w,
  match m w with
  | (inl e, w') => h e w'
  | (inr x, w') => (inr x, w')
  end.

(** ** Persistence *)

Definition load_projects : M Store := λ w,
  match file w with
  | None => (inl FileNotFoundError, w)
  | Some data => (inr (DataFrame_of_records <$> data), w)
  end.

(** [json.dump(data, f)] on the file opened for writing. *)
Definition write_file (w : World) (data : FileData) : World :=
  {| file := Some data;
     session_projects := session_projects w;
     current_project := current_project w;
     saves := S (saves w) |}.

Definition save_projects (projects : Store) : M () := λ w,
  (inr (), write_file w (records <$> projects)).

(** The initialisation of [st.session_state.projects] (start of a session). *)
Definition init_session : M () := λ w,
  (inr (),
   {| file := file w;
      session_projects :=
        match file w with
        | Some data => DataFrame_of_records <$> data
        | None => ∅
        end;
      current_project := None;
      saves := saves w |}).

(** ** DataFrame accessors used by the handlers *)

(** [df['key']]: raises [KeyError] on a frame without columns. *)
Definition column_key (df : DataFrame) : M (list string) :=
  match df with
  | NoColumns => raise (KeyError "key")
  | Frame rows => mret (key <$> rows)
  end.

(** [df.set_index('key').loc[k, 'value']] *)
Definition loc_value (df : DataFrame) (k : string) : M PyValue :=
  match df with
  | NoColumns => raise (KeyError "key")
  | Frame rows =>
      match value <$> filter (λ e, key e = k) rows with
      | [] => raise (KeyError k)
      | [v] => mret (PyStr v)
      | vs => mret (PySeries vs)
      end
  end.

(** [df.set_index('key').to_dict()['value']] *)
Definition config_of (df : DataFrame) : M pydict :=
  match df with
  | NoColumns => raise (KeyError "key")
  | Frame rows => mret (to_dict rows)
  end.

(** ** Request and response models *)

Module ConfigKey.
Record t := mk { project : string; key : string }.
End ConfigKey.

Module ConfigValue.
Record t := mk { value : string }.
End ConfigValue.

Module ConfigBatchUpdate.
Record t := mk { project : string; updates : pydict }.
End ConfigBatchUpdate.

Module ConfigBatchDelete.
Record t := mk { project : string; keys : list string }.
End ConfigBatchDelete.

Module ConfigResponse.
Record t := mk { project : string; key : string; value : PyValue }.
End ConfigResponse.

Module BatchUpdateResponse.
Record t := mk { project : string; message : string; updated_items : nat }.
End BatchUpdateResponse.

Module BatchDeleteResponse.
Record t := mk { project : string; message : string; deleted_items : nat }.
End BatchDeleteResponse.

Definition of_option (o : option string) : PyValue :=
  match o with Some s => PyStr s | None => PyNone end.

(** ** API handlers *)

Definition handle_project_not_found {A} (project_name : string) : M A :=
  raise (HTTPException 404 ("项目 '" +:+ project_name +:+ "' 不存在")).

Definition key_not_found (k : string) : Exn :=
  HTTPException 404 ("配置项 '" +:+ k +:+ "' 不存在").

Definition get_config (config_key : ConfigKey.t) : M ConfigResponse.t :=
  projects ← load_projects;
  match projects !! ConfigKey.project config_key with
  | None => handle_project_not_found (ConfigKey.project config_key)
  | Some current_project =>
      keys ← column_key current_project;
      if bool_decide (ConfigKey.key config_key ∈ keys) then
        value ← loc_value current_project (ConfigKey.key config_key);
        mret (ConfigResponse.mk (ConfigKey.project config_key)
                                (ConfigKey.key config_key) value)
      else raise (key_not_found (ConfigKey.key config_key))
  end.

Definition set_config (config_key : ConfigKey.t) (config_value : ConfigValue.t)
  : M ConfigResponse.t :=
  projects ← load_projects;
  match projects !! ConfigKey.project config_key with
  | None => handle_project_not_found (ConfigKey.project config_key)
  | Some current_project =>
      if empty current_project then
        raise (key_not_found (ConfigKey.key config_key))
      else
        config ← config_of current_project;
        let config := dict_setitem config (ConfigKey.key config_key)
                                   (ConfigValue.value config_value) in
        let projects := <[ConfigKey.project config_key :=
                            DataFrame_of_items config]> projects in
        save_projects projects;;
        mret (ConfigResponse.mk (ConfigKey.project config_key)
                                (ConfigKey.key config_key)
                                (PyStr (ConfigValue.value config_value)))
  end.

Definition delete_config (config_key : ConfigKey.t) : M ConfigResponse.t :=
  projects ← load_projects;
  match projects !! ConfigKey.project config_key with
  | None => handle_project_not_found (ConfigKey.project config_key)
  | Some current_project =>
      if empty current_project then
        raise (key_not_found (ConfigKey.key config_key))
      else
        config ← config_of current_project;
        let '(value, config) := dict_pop config (ConfigKey.key config_key) in
        let projects := <[ConfigKey.project config_key :=
                            DataFrame_of_items config]> projects in
        save_projects projects;;
        mret (ConfigResponse.mk (ConfigKey.project config_key)
                                (ConfigKey.key config_key) (of_option value))
  end.

Definition batch_set_config (batch_update : ConfigBatchUpdate.t)
  : M BatchUpdateResponse.t :=
  projects ← load_projects;
  match projects !! ConfigBatchUpdate.project batch_update with
  | None => handle_project_not_found (ConfigBatchUpdate.project batch_update)
  | Some current_project =>
      if empty current_project then
        raise (HTTPException 404 "项目为空，无法进行批量更新")
      else
        config ← config_of current_project;
        let config :=
          apply_updates config (ConfigBatchUpdate.updates batch_update) in
        let projects := <[ConfigBatchUpdate.project batch_update :=
                            DataFrame_of_items config]> projects in
        save_projects projects;;
        let n := length (ConfigBatchUpdate.updates batch_update) in
        mret (BatchUpdateResponse.mk (ConfigBatchUpdate.project batch_update)
                ("批量更新成功，共更新 " +:+ pretty n +:+ " 个配置项") n)
  end.

(** The loop of [batch_remove_config] over [batch_delete.keys]. *)
Definition remove_keys (config : pydict) (keys : list string) : pydict * nat :=
  foldl (λ '(config, deleted_count) key,
           if dict_contains config key
           then (dict_delitem config key, S deleted_count)
           else (config, deleted_count))
        (config, 0) keys.

Definition batch_remove_config (batch_delete : ConfigBatchDelete.t)
  : M BatchDeleteResponse.t :=
  projects ← load_projects;
  match projects !! ConfigBatchDelete.project batch_delete with
  | None => raise (HTTPException 404 "项目不存在")
  | Some current_project =>
      if empty current_project then
        raise (HTTPException 404 "项目为空，无法进行批量删除")
      else
        config ← config_of current_project;
        let '(config, deleted_count) :=
          remove_keys config (ConfigBatchDelete.keys batch_delete) in
        let projects := <[ConfigBatchDelete.project batch_delete :=
                            DataFrame_of_items config]> projects in
        save_projects projects;;
        mret (BatchDeleteResponse.mk (ConfigBatchDelete.project batch_delete)
                ("批量删除成功，共删除 " +:+ pretty deleted_count +:+ " 个配置项")
                deleted_count)
  end.

(** ** Streamlit handlers that write to the store

    The handlers act on [st.session_state.projects] for the project named by
    [st.session_state.current_project], then save the whole session store.
    Each one is the body that runs when its button or form is submitted;
    widgets, search boxes and pagination are left out. *)

Inductive Feedback :=
  | NotShown                               (* the widget is not on the page *)
  | Rerun                                  (* show_success = True; st.rerun() *)
  | KeyAlreadyExists                       (* st.error("⚠️ 该配置项已存在！") *)
  | Incomplete                             (* st.warning("⚠️ 请填写完整的配置项和配置值") *)
  | DuplicateKeys (duplicates : gset string)
      (* st.error(f"检测到 {len(duplicates)} 个重复key，无法添加：...") *)
  | FileProcessingError (e : Exn).         (* st.error(f"文件处理失败: {str(e)}") *)

(** [st.session_state.current_project], with the truth test the script
    applies to it: [None] and the empty name both count as no selection. *)
Definition get_current_project : M (option string) := λ w,
  (inr (match current_project w with
        | Some "" => None
        | cur => cur
        end), w).

Definition get_session_projects : M Store := λ w,
  (inr (session_projects w), w).

(** [st.session_state.projects[name]] *)
Definition session_getitem (name : string) : M DataFrame := λ w,
  match session_projects w !! name with
  | Some df => (inr df, w)
  | None => (inl (KeyError name), w)
  end.

(** [st.session_state.projects[name] = df] *)
Definition session_setitem (name : string) (df : DataFrame) : M () := λ w,
  (inr (),
   {| file := file w;
      session_projects := <[name := df]> (session_projects w);
      current_project := current_project w;
      saves := saves w |}).

(** [pd.concat([df, batch_data], ignore_index=True)], where the second frame
    has the columns ['key', 'value']. *)
Definition concat (df : DataFrame) (batch_data : list Entry) : DataFrame :=
  Frame (records df ++ batch_data).

(** [save_projects(st.session_state.projects)] and the rerun. *)
Definition save_and_rerun : M Feedback :=
  projects ← get_session_projects;
  save_projects projects;;
  mret Rerun.

(** The [add_config] form. *)
Definition add_config_form (key value : string) : M Feedback :=
  cur ← get_current_project;
  match cur with
  | None => mret NotShown
  | Some cur =>
      current_configs ← session_getitem cur;
      if bool_decide (key ≠ "") && bool_decide (value ≠ "") then
        keys ← column_key current_configs;
        if bool_decide (key ∈ keys) then mret KeyAlreadyExists
        else
          session_setitem cur (concat current_configs [mkEntry key value]);;
          save_and_rerun
      else mret Incomplete
  end.

(** The [edit_config] form: [selected_key] is one of the keys the select box
    offers, every row with that key gets [new_value]. *)
Definition edit_config_form (selected_key new_value : string) : M Feedback :=
  cur ← get_current_project;
  match cur with
  | None => mret NotShown
  | Some cur =>
      current_configs ← session_getitem cur;
      if bool_decide (0 < length (records current_configs)) then
        keys ← column_key current_configs;
        if bool_decide (selected_key ∈ keys) then
          session_setitem cur
            (Frame ((λ e, if decide (key e = selected_key)
                          then mkEntry (key e) new_value else e)
                    <$> records current_configs));;
          save_and_rerun
        else mret NotShown
      else mret NotShown
  end.

(** The delete button: keeps the rows whose key differs from [selected_key]. *)
Definition delete_button (selected_key : string) : M Feedback :=
  cur ← get_current_project;
  match cur with
  | None => mret NotShown
  | Some cur =>
      current_configs ← session_getitem cur;
      if bool_decide (0 < length (records current_configs)) then
        keys ← column_key current_configs;
        if bool_decide (selected_key ∈ keys) then
          session_setitem cur
            (Frame (filter (λ e, key e ≠ selected_key) (records current_configs)));;
          save_and_rerun
        else mret NotShown
      else mret NotShown
  end.

(** The batch add button; [batch_data] holds the rows parsed from the
    uploaded file. *)
Definition batch_add_button (batch_data : list Entry) : M Feedback :=
  cur ← get_current_project;
  match cur with
  | None => mret NotShown
  | Some cur =>
      try_except
        (df ← session_getitem cur;
         existing_keys ←
           (if empty df then mret (∅ : gset string)
            else keys ← column_key df; mret (list_to_set keys));
         let new_keys : gset string := list_to_set (key <$> batch_data) in
         let duplicates := existing_keys ∩ new_keys in
         if bool_decide (duplicates ≠ ∅) then mret (DuplicateKeys duplicates)
         else
           session_setitem cur (concat df batch_data);;
           save_and_rerun)
        (λ e, mret (FileProcessingError e))
  end.

(** The batch delete button: drops the rows whose key is in the file. *)
Definition batch_delete_button (batch_data : list Entry) : M Feedback :=
  cur ← get_current_project;
  match cur with
  | None => mret NotShown
  | Some cur =>
      try_except
        (df ← session_getitem cur;
         keys ← column_key df;
         session_setitem cur
           (Frame (filter (λ e, key e ∉ key <$> batch_data) (records df)));;
         save_and_rerun)
        (λ e, mret (FileProcessingError e))
  end.

(** ** Sequences of operations *)

Inductive Op :=
  | UiAdd (key value : string)
  | UiEdit (selected_key new_value : string)
  | UiDelete (selected_key : string)
  | UiBatchAdd (batch_data : list Entry)
  | UiBatchDelete (batch_data : list Entry)
  | ApiSet (config_key : ConfigKey.t) (config_value : ConfigValue.t)
  | ApiDelete (config_key : ConfigKey.t)
  | ApiBatchSet (batch_update : ConfigBatchUpdate.t)
  | ApiBatchDelete (batch_delete : ConfigBatchDelete.t).

(** The world after one operation, whatever it answered. *)
Definition step (w : World) (op : Op) : World :=
  match op with
  | UiAdd k v => (add_config_form k v w).2
  | UiEdit k v => (edit_config_form k v w).2
  | UiDelete k => (delete_button k w).2
  | UiBatchAdd b => (batch_add_button b w).2
  | UiBatchDelete b => (batch_delete_button b w).2
  | ApiSet ck cv => (set_config ck cv w).2
  | ApiDelete ck => (delete_config ck w).2
  | ApiBatchSet bu => (batch_set_config bu w).2
  | ApiBatchDelete bd => (batch_remove_config bd w).2
  end.

Definition run (ops : list Op) (w : World) : World := foldl step w ops.

(** ** The key uniqueness invariant *)

Definition unique_keys (rows : list Entry) : Prop := NoDup (key <$> rows).

Definition store_unique (projects : Store) : Prop :=
  map_Forall (λ _ df, unique_keys (records df)) projects.

Definition file_unique (f : option FileData) : Prop :=
  match f with
  | None => True
  | Some data => map_Forall (λ _ rows, unique_keys rows) data
  end.

Definition world_unique (w : World) : Prop :=
  store_unique (session_projects w) ∧ file_unique (file w).

#[global] Instance unique_keys_dec rows : Decision (unique_keys rows).
Proof. unfold unique_keys. apply _. Defined.
#[global] Instance store_unique_dec s : Decision (store_unique s).
Proof. unfold store_unique. apply _. Defined.
#[global] Instance file_unique_dec f : Decision (file_unique f).
Proof. destruct f; simpl; apply _. Defined.
#[global] Instance world_unique_dec w : Decision (world_unique w).
Proof. unfold world_unique. apply _. Defined.

(** ** Project management in the sidebar *)

Inductive ProjectFeedback :=
  | ProjectRerun          (* show_success = True; st.rerun() *)
  | ProjectExists         (* st.error("⚠️ 项目已存在！") *)
  | NameMissing           (* st.warning("⚠️ 请输入项目名称") *)
  | NameMismatch          (* st.error("⚠️ 项目名称不匹配，删除操作已取消") *)
  | NothingToDelete.      (* st.warning("当前没有可删除的项目") *)

(** [st.session_state.current_project = cur] *)
Definition set_current_project (cur : option string) : M () := λ w,
  (inr (),
   {| file := file w;
      session_projects := session_projects w;
      current_project := cur;
      saves := saves w |}).

(** [del st.session_state.projects[name]] *)
Definition session_delitem (name : string) : M () := λ w,
  match session_projects w !! name with
  | Some _ =>
      (inr (),
       {| file := file w;
          session_projects := delete name (session_projects w);
          current_project := current_project w;
          saves := saves w |})
  | None => (inl (KeyError name), w)
  end.

(** The button that creates a project: the new project gets a frame with the
    two columns and no row, and becomes the selected project. *)
Definition create_project_button (new_project : string) : M ProjectFeedback :=
  if bool_decide (new_project ≠ "") then
    projects ← get_session_projects;
    match projects !! new_project with
    | Some _ => mret ProjectExists
    | None =>
        session_setitem new_project (Frame []);;
        set_current_project (Some new_project);;
        projects ← get_session_projects;
        save_projects projects;;
        mret ProjectRerun
    end
  else mret NameMissing.

(** The button that deletes the selected project. The selection moves to
    [list(st.session_state.projects.keys())[0]]; the [gmap] does not record
    the insertion order of the Python dict, so [project_names], the keys of
    the session store in that order before the deletion, is an argument. *)
Definition delete_project_button
    (project_names : list string) (confirm_project : string)
  : M ProjectFeedback :=
  cur ← get_current_project;
  match cur with
  | None => mret NothingToDelete
  | Some cur =>
      if bool_decide (confirm_project = cur) then
        session_delitem cur;;
        projects ← get_session_projects;
        set_current_project
          (if bool_decide (projects = ∅) then None
           else head (filter (λ name, name ≠ cur) project_names));;
        save_projects projects;;
        mret ProjectRerun
      else mret NameMismatch
  end.

(** ** Pagination *)

(** A bound of a Python slice over a sequence of [len] items. *)
Definition slice_index (len i : Z) : Z :=
  if decide (i < 0)%Z then Z.max 0 (len + i) else Z.min i len.

(** [l[start:stop]] *)
Definition py_slice {A} (l : list A) (start stop : Z) : list A :=
  let len := Z.of_nat (length l) in
  let first := slice_index len start in
  let last := slice_index len stop in
  take (Z.to_nat (last - first)) (drop (Z.to_nat first) l).

(** [df.iloc[start:stop]] *)
Definition iloc (df : DataFrame) (start stop : Z) : DataFrame :=
  match df with
  | NoColumns => NoColumns
  | Frame rows => Frame (py_slice rows start stop)
  end.

Definition get_paginated_data (configs : DataFrame) (page page_size : Z)
  : DataFrame :=
  let start_idx := ((page - 1) * page_size)%Z in
  let end_idx := (start_idx + page_size)%Z in
  iloc configs start_idx end_idx.

(** [(len(filtered_configs) + page_size - 1) // page_size] *)
Definition total_pages (filtered_configs : DataFrame) (page_size : Z) : Z :=
  ((Z.of_nat (length (records filtered_configs)) + page_size - 1) `div` page_size)%Z.

(** ** The selection invariant *)

(** The selected project, when there is one, is a project of the session. *)
Definition current_ok (w : World) : Prop :=
  match current_project w with
  | Some cur => is_Some (session_projects w !! cur)
  | None => True
  end.

(** ** Sequences of API calls *)

(** [set_config] for each pair, one call after the other. *)
Definition set_each (P : string) (updates : pydict) (w : World) : World :=
  foldl (λ w kv, (set_config (ConfigKey.mk P kv.1) (ConfigValue.mk kv.2) w).2)
        w updates.

(** [delete_config] for each key, one call after the other. *)
Definition delete_each (P : string) (keys : list string) (w : World) : World :=
  foldl (λ w k, (delete_config (ConfigKey.mk P k) w).2) w keys.

(** ** Definitions used to state the properties *)

(** The rows of a frame as (key, value) pairs. *)
Definition items_of_rows (rows : list Entry) : pydict :=
  (λ e, (key e, value e)) <$> rows.

(** The value of the last item of [items] whose key is [k]. *)
Definition last_item (items : pydict) (k : string) : option string :=
  snd <$> last (filter (λ kv, kv.1 = k) items).

(** The value of the last row of [rows] whose key is [k]. *)
Definition last_value (rows : list Entry) (k : string) : option string :=
  value <$> last (filter (λ e, key e = k) rows).

(** A project's rows once they went through [to_dict] and back into a frame:
    one row per key, at the place of the key's first row. *)
Definition collapse (rows : list Entry) : list Entry :=
  rows_of_items (to_dict rows).

(** Upsert in the words of the specification: the value is replaced if the
    key exists, a new entry is appended if it is absent. *)
Definition upsert (K V : string) (rows : list Entry) : list Entry :=
  if decide (K ∈ key <$> rows)
  then (λ e, if decide (key e = K) then mkEntry K V else e) <$> rows
  else rows ++ [mkEntry K V].

(** Two calls of [delete_config] in a row both answer, the second one with
    no value. *)
Definition delete_twice_succeeds (w : World) (P K : string) : Prop :=
  ∃ r1 w1 r2 w2,
    delete_config (ConfigKey.mk P K) w = (inr r1, w1)
    ∧ delete_config (ConfigKey.mk P K) w1 = (inr r2, w2)
    ∧ ConfigResponse.value r2 = PyNone.

(** The session after [st.session_state.projects[cur] = df] and the save. *)
Definition stored (w : World) (cur : string) (df : DataFrame) : World :=
  write_file
    {| file := file w;
       session_projects := <[cur := df]> (session_projects w);
       current_project := current_project w;
       saves := saves w |}
    (records <$> <[cur := df]> (session_projects w)).

(** The batches whose rows carry pairwise distinct keys (every JSON or YAML
    upload, and the CSV uploads without a repeated key). *)
Definition batch_unique (op : Op) : Prop :=
  match op with
  | UiBatchAdd batch_data => unique_keys batch_data
  | _ => True
  end.

(** What an API mutation on project [P] may do to the world: raise and
    change nothing, or answer after exactly one save that leaves the session
    state alone, keeps the project names of the file and the entries of
    every project other than [P]. *)
Definition mutation_frame {A} (P : string) (w : World)
    (outcome : (Exn + A) * World) : Prop :=
  match outcome with
  | (inl _, w') => w' = w
  | (inr _, w') =>
      saves w' = S (saves w)
      ∧ session_projects w' = session_projects w
      ∧ current_project w' = current_project w
      ∧ ∃ data data' : FileData,
          file w = Some data ∧ file w' = Some data'
          ∧ dom data' = dom data
          ∧ ∀ Q, Q ≠ P → data' !! Q = data !! Q
  end.

(** The selection and the names of the session projects are the same in
    both worlds. *)
Definition same_selection (w w' : World) : Prop :=
  current_project w' = current_project w
  ∧ dom (session_projects w') = dom (session_projects w).

(** The world after the creation of project [name]. *)
Definition created (w : World) (name : string) : World :=
  {| file := Some (records <$> <[name := Frame []]> (session_projects w));
     session_projects := <[name := Frame []]> (session_projects w);
     current_project := Some name;
     saves := S (saves w) |}.

(** The world after the deletion of project [cur], the names of the session
    projects being [project_names]. *)
Definition deleted (w : World) (project_names : list string) (cur : string)
  : World :=
  {| file := Some (records <$> delete cur (session_projects w));
     session_projects := delete cur (session_projects w);
     current_project :=
       if bool_decide (delete cur (session_projects w) = ∅) then None
       else head (filter (λ name, name ≠ cur) project_names);
     saves := S (saves w) |}.

(** ** Sample worlds *)

(** A session with a project of two entries selected. *)
Definition ui_two : World :=
  {| file := Some {[ "svc" := [mkEntry "timeout" "30"; mkEntry "retries" "3"] ]};
     session_projects :=
       {[ "svc" := Frame [mkEntry "timeout" "30"; mkEntry "retries" "3"] ]};
     current_project := Some "svc";
     saves := 2 |}.

(** A session started from a file in which the project has no entry. *)
Definition ui_loaded_empty : World :=
  {| file := Some {[ "svc" := [] ]};
     session_projects := {[ "svc" := NoColumns ]};
     current_project := Some "svc";
     saves := 0 |}.

(** A session with two projects, the first one selected. *)
Definition ui_projects : World :=
  {| file := Some {[ "svc" := [mkEntry "timeout" "30"]; "web" := [] ]};
     session_projects :=
       {[ "svc" := Frame [mkEntry "timeout" "30"]; "web" := NoColumns ]};
     current_project := Some "svc";
     saves := 0 |}.

(** No data file yet. *)
Definition no_file : World :=
  {| file := None;
     session_projects := ∅;
     current_project := None;
     saves := 0 |}.


(** A project just created from the page: no entry yet. *)
Definition svc_empty : World :=
  {| file := Some {[ "svc" := [] ]};
     session_projects := {[ "svc" := Frame [] ]};
     current_project := Some "svc";
     saves := 1 |}.

(** A stored project with a single entry. *)
Definition svc_one : World :=
  {| file := Some {[ "svc" := [mkEntry "timeout" "30"] ]};
     session_projects := ∅;
     current_project := None;
     saves := 0 |}.

(** A stored project with two entries. *)
Definition svc_two : World :=
  {| file := Some {[ "svc" := [mkEntry "timeout" "30"; mkEntry "retries" "3"] ]};
     session_projects := ∅;
     current_project := None;
     saves := 0 |}.

(** A stored project with a repeated key (what the batch add of a table with
    a repeated key leaves in the file). *)
Definition svc_repeated : World :=
  {| file := Some {[ "svc" := [mkEntry "timeout" "30"; mkEntry "retries" "3";
                               mkEntry "timeout" "60"] ]};
     session_projects := ∅;
     current_project := None;
     saves := 0 |}.

(** A session with the project selected, in step with the file. *)
Definition ui_svc : World :=
  {| file := Some {[ "svc" := [mkEntry "timeout" "30"] ]};
     session_projects := {[ "svc" := Frame [mkEntry "timeout" "30"] ]};
     current_project := Some "svc";
     saves := 3 |}.

(** * Properties *)

(** ** Python dictionaries *)

Section dict.
Implicit Types (d : pydict) (k v : string).

Lemma dict_get_None d k : dict_get d k = None ↔ k ∉ d.*1.
Proof.
  induction d as [|[k' v'] d IH]; csimpl.
  - split; [intros _; apply not_elem_of_nil | done].
  - case_decide; subst.
    + split; [done | intros []; left].
    + rewrite IH, not_elem_of_cons. intuition congruence.
Qed.

Lemma dict_get_Some_elem d k v : dict_get d k = Some v → (k, v) ∈ d.
Proof.
  induction d as [|[k' v'] d IH]; csimpl; [done|].
  case_decide; subst.
  - intros [= ->]. left.
  - intros ?. right. auto.
Qed.

Lemma dict_get_elem d k v : NoDup d.*1 → (k, v) ∈ d → dict_get d k = Some v.
Proof.
  induction d as [|[k' v'] d IH]; csimpl.
  - intros _ ?%elem_of_nil. done.
  - intros [Hk Hd]%NoDup_cons [[= -> ->]|Hin]%elem_of_cons.
    + by rewrite decide_True.
    + rewrite decide_False; [auto|].
      intros ->. apply Hk. apply list_elem_of_fmap. by exists (k, v).
Qed.

Lemma dict_contains_elem d k : dict_contains d k = true ↔ k ∈ d.*1.
Proof.
  unfold dict_contains. destruct (dict_get d k) eqn:E.
  - split; [intros _ | done].
    apply dict_get_Some_elem in E. apply list_elem_of_fmap. by exists (k, s).
  - split; [done|]. apply dict_get_None in E. done.
Qed.

Lemma dict_setitem_keys_in d k v : k ∈ d.*1 → (dict_setitem d k v).*1 = d.*1.
Proof.
  induction d as [|[k' v'] d IH]; csimpl.
  - intros ?%elem_of_nil. done.
  - case_decide; subst; csimpl; [done|].
    intros [->|Hin]%elem_of_cons; [done|]. by rewrite IH.
Qed.

Lemma dict_setitem_absent d k v : k ∉ d.*1 → dict_setitem d k v = d ++ [(k, v)].
Proof.
  induction d as [|[k' v'] d IH]; csimpl; [done|].
  intros [? ?]%not_elem_of_cons. rewrite decide_False by done. by rewrite IH.
Qed.

Lemma dict_setitem_keys d k v :
  (dict_setitem d k v).*1 = if decide (k ∈ d.*1) then d.*1 else d.*1 ++ [k].
Proof.
  case_decide.
  - by apply dict_setitem_keys_in.
  - rewrite dict_setitem_absent by done. by rewrite fmap_app.
Qed.

Lemma dict_setitem_NoDup d k v : NoDup d.*1 → NoDup (dict_setitem d k v).*1.
Proof.
  intros Hd. rewrite dict_setitem_keys. case_decide; [done|].
  apply NoDup_app. split_and!; [done | | apply NoDup_singleton].
  intros x Hx ->%list_elem_of_singleton. done.
Qed.

Lemma dict_get_setitem d k v k' :
  dict_get (dict_setitem d k v) k' =
    if decide (k = k') then Some v else dict_get d k'.
Proof.
  induction d as [|[k0 v0] d IH]; csimpl.
  - repeat case_decide; congruence.
  - repeat (case_decide; csimpl; subst); try congruence.
    all: rewrite IH; repeat case_decide; congruence.
Qed.

Lemma dict_delitem_absent d k : k ∉ d.*1 → dict_delitem d k = d.
Proof.
  induction d as [|[k' v'] d IH]; csimpl; [done|].
  intros [? ?]%not_elem_of_cons. rewrite decide_False by done. by rewrite IH.
Qed.

Lemma dict_delitem_filter d k :
  NoDup d.*1 → dict_delitem d k = filter (λ kv, kv.1 ≠ k) d.
Proof.
  induction d as [|[k' v'] d IH]; csimpl; [done|].
  intros [Hk Hd]%NoDup_cons. case_decide; subst.
  - rewrite filter_cons_False by (csimpl; auto).
    rewrite <- (dict_delitem_absent d k) at 1 by done. auto.
  - rewrite filter_cons_True by done. by rewrite IH.
Qed.

Lemma dict_delitem_sublist d k : sublist (dict_delitem d k) d.
Proof.
  induction d as [|[k' v'] d IH]; csimpl; [done|].
  case_decide; [by apply sublist_cons | by apply sublist_skip].
Qed.

Lemma dict_delitem_NoDup d k : NoDup d.*1 → NoDup (dict_delitem d k).*1.
Proof.
  intros Hd. eapply sublist_NoDup; [exact Hd|].
  apply fmap_sublist, dict_delitem_sublist.
Qed.

Lemma dict_get_delitem d k k' :
  NoDup d.*1 →
  dict_get (dict_delitem d k) k' =
    if decide (k = k') then None else dict_get d k'.
Proof.
  induction d as [|[k0 v0] d IH]; csimpl.
  - intros _. by case_decide.
  - intros [Hk Hd]%NoDup_cons.
    destruct (decide (k0 = k)) as [->|Hne]; csimpl.
    + destruct (decide (k = k')) as [->|]; [by apply dict_get_None | done].
    + rewrite IH by done. repeat case_decide; congruence.
Qed.

Lemma dict_delitem_keys d k :
  NoDup d.*1 → (dict_delitem d k).*1 = filter (λ k', k' ≠ k) d.*1.
Proof.
  intros Hd. rewrite dict_delitem_filter by done.
  induction d as [|[k' v'] d IH]; csimpl; [done|].
  apply NoDup_cons in Hd as [? ?].
  rewrite !filter_cons; csimpl. case_decide; csimpl; by rewrite IH.
Qed.
End dict.

(** ** Dictionaries built from rows, and the two loops *)

Section loops.
Implicit Types (d items : pydict) (rows : list Entry) (k v : string).

Lemma to_dict_apply_updates rows :
  to_dict rows = apply_updates [] (items_of_rows rows).
Proof. unfold to_dict, apply_updates, items_of_rows. by rewrite foldl_fmap. Qed.

Lemma last_item_rows rows k : last_item (items_of_rows rows) k = last_value rows k.
Proof.
  unfold last_item, last_value, items_of_rows.
  induction rows as [|e rows IH]; [done|]. csimpl.
  rewrite !filter_cons. csimpl. case_decide; [|done].
  rewrite !last_cons.
  destruct (last (filter _ (_ <$> rows))), (last (filter _ rows)); naive_solver.
Qed.

Lemma last_item_None items k : last_item items k = None ↔ k ∉ items.*1.
Proof.
  unfold last_item. rewrite fmap_None, last_None.
  split.
  - intros Hnil [[k' v'] [Heq Hin]]%list_elem_of_fmap. simpl in Heq. subst k.
    assert (Hf : (k', v') ∈ filter (λ kv, kv.1 = k') items)
      by (by apply list_elem_of_filter).
    rewrite Hnil in Hf. by apply elem_of_nil in Hf.
  - intros Hk. destruct (filter _ items) as [|[k' v'] l] eqn:E; [done|].
    assert (Hf : (k', v') ∈ filter (λ kv, kv.1 = k) items) by (rewrite E; left).
    apply list_elem_of_filter in Hf as [Heq Hin]. simpl in Heq. subst.
    exfalso. apply Hk, list_elem_of_fmap. by exists (k, v').
Qed.

Lemma apply_updates_NoDup d items : NoDup d.*1 → NoDup (apply_updates d items).*1.
Proof.
  revert d. induction items as [|[k v] items IH]; intros d Hd; [done|].
  apply IH. by apply dict_setitem_NoDup.
Qed.

Lemma dict_get_apply_updates d items k :
  dict_get (apply_updates d items) k =
    match last_item items k with Some v => Some v | None => dict_get d k end.
Proof.
  revert d. induction items as [|[k0 v0] items IH]; intros d; [done|].
  change (apply_updates d ((k0, v0) :: items))
    with (apply_updates (dict_setitem d k0 v0) items).
  rewrite IH, dict_get_setitem. unfold last_item.
  rewrite filter_cons. csimpl. case_decide; [|done].
  rewrite last_cons. by destruct (last (filter _ items)).
Qed.

Lemma apply_updates_keys d items k :
  k ∈ (apply_updates d items).*1 ↔ k ∈ d.*1 ∨ k ∈ items.*1.
Proof.
  assert (Hn : k ∉ (apply_updates d items).*1 ↔ (k ∉ d.*1) ∧ (k ∉ items.*1)).
  { rewrite <- (last_item_None items k), <- !dict_get_None, dict_get_apply_updates.
    destruct (last_item items k); intuition congruence. }
  destruct (decide (k ∈ (apply_updates d items).*1)),
    (decide (k ∈ d.*1)), (decide (k ∈ items.*1)); tauto.
Qed.

(** Fresh keys are appended in the order of the updates. *)
Lemma apply_updates_fresh d items :
  NoDup (d.*1 ++ items.*1) → apply_updates d items = d ++ items.
Proof.
  revert d. induction items as [|[k v] items IH]; intros d Hd.
  - by rewrite app_nil_r.
  - change (apply_updates d ((k, v) :: items))
      with (apply_updates (dict_setitem d k v) items).
    csimpl in Hd. rewrite dict_setitem_absent.
    + rewrite IH; [by rewrite <- app_assoc|].
      by rewrite fmap_app, <- app_assoc.
    + apply NoDup_app in Hd as (_ & Hd & _). intros Hk.
      apply (Hd k Hk). left.
Qed.

Lemma to_dict_NoDup rows : NoDup (to_dict rows).*1.
Proof. rewrite to_dict_apply_updates. apply apply_updates_NoDup, NoDup_nil_2. Qed.

Lemma dict_get_to_dict rows k : dict_get (to_dict rows) k = last_value rows k.
Proof.
  rewrite to_dict_apply_updates, dict_get_apply_updates, last_item_rows.
  by destruct (last_value rows k).
Qed.

Lemma items_of_rows_keys rows : (items_of_rows rows).*1 = key <$> rows.
Proof. unfold items_of_rows. rewrite <- list_fmap_compose. done. Qed.

Lemma to_dict_keys rows k : k ∈ (to_dict rows).*1 ↔ k ∈ key <$> rows.
Proof.
  rewrite to_dict_apply_updates, apply_updates_keys, items_of_rows_keys.
  split; [intros [?%elem_of_nil|?]; done | by right].
Qed.

(** A frame that already has one row per key is its own dictionary. *)
Lemma to_dict_unique rows :
  NoDup (key <$> rows) → to_dict rows = items_of_rows rows.
Proof.
  intros Hrows. rewrite to_dict_apply_updates.
  rewrite apply_updates_fresh; [done|]. by rewrite items_of_rows_keys.
Qed.

Lemma rows_of_items_of_rows rows : rows_of_items (items_of_rows rows) = rows.
Proof.
  unfold rows_of_items, items_of_rows.
  induction rows as [|[k v] rows IH]; csimpl; [done|]. by rewrite IH.
Qed.

Lemma rows_of_items_keys d : key <$> rows_of_items d = d.*1.
Proof. unfold rows_of_items. by rewrite <- list_fmap_compose. Qed.

Lemma elem_of_rows_of_items d k v : mkEntry k v ∈ rows_of_items d ↔ (k, v) ∈ d.
Proof.
  unfold rows_of_items. rewrite list_elem_of_fmap. split.
  - intros [[k' v'] [[= -> ->] ?]]. done.
  - intros ?. by exists (k, v).
Qed.

Lemma to_dict_nil rows : to_dict rows = [] → rows = [].
Proof.
  destruct rows as [|e rows]; [done|]. intros Hnil. exfalso.
  assert (Hk : key e ∈ (to_dict (e :: rows)).*1) by (apply to_dict_keys; left).
  rewrite Hnil in Hk. by apply elem_of_nil in Hk.
Qed.
End loops.

Section remove_loop.
Implicit Types (d : pydict) (ks : list string) (k : string) (n : nat).

Lemma filter_notin_nil d : filter (λ kv, kv.1 ∉ @nil string) d = d.
Proof.
  induction d as [|kv d IH]; [done|].
  rewrite filter_cons_True by apply not_elem_of_nil. by rewrite IH.
Qed.

Lemma filter_notin_cons d k ks :
  filter (λ kv, kv.1 ∉ k :: ks) d =
    filter (λ kv, kv.1 ∉ ks) (filter (λ kv, kv.1 ≠ k) d).
Proof.
  induction d as [|kv d IH]; [done|].
  rewrite !filter_cons. destruct (decide (kv.1 ≠ k)) as [Hne|Heq].
  - rewrite filter_cons. rewrite <- IH.
    destruct (decide (kv.1 ∉ ks)) as [Hks|Hks].
    + rewrite decide_True; [done|]. rewrite not_elem_of_cons. done.
    + rewrite decide_False; [done|]. rewrite not_elem_of_cons. tauto.
  - rewrite decide_False; [done|]. rewrite not_elem_of_cons. tauto.
Qed.

Lemma dict_delitem_length d k :
  k ∈ d.*1 → S (length (dict_delitem d k)) = length d.
Proof.
  induction d as [|[k' v'] d IH]; csimpl.
  - intros ?%elem_of_nil. done.
  - case_decide; [done|]. intros [->|Hin]%elem_of_cons; [done|].
    csimpl. by rewrite IH.
Qed.

Lemma length_filter_split {A} (P : A → Prop) `{!∀ x, Decision (P x)} (l : list A) :
  length (filter P l) + length (filter (λ x, ¬ P x) l) = length l.
Proof.
  induction l as [|x l IH]; [done|].
  rewrite !filter_cons.
  destruct (decide (P x)).
  - rewrite decide_False by tauto. simpl. lia.
  - rewrite decide_True by tauto. simpl. lia.
Qed.

Lemma remove_loop d n ks :
  NoDup d.*1 →
  foldl (λ '(config, deleted_count) key,
           if dict_contains config key
           then (dict_delitem config key, S deleted_count)
           else (config, deleted_count)) (d, n) ks
  = (filter (λ kv, kv.1 ∉ ks) d,
     n + (length d - length (filter (λ kv, kv.1 ∉ ks) d))).
Proof.
  revert d n. induction ks as [|k ks IH]; intros d n Hd.
  - simpl. rewrite filter_notin_nil. f_equal. lia.
  - simpl. rewrite filter_notin_cons.
    destruct (dict_contains d k) eqn:Hc.
    + apply dict_contains_elem in Hc.
      rewrite IH by by apply dict_delitem_NoDup.
      rewrite <- dict_delitem_filter by done. f_equal.
      pose proof (dict_delitem_length d k Hc).
      pose proof (length_filter (λ kv, kv.1 ∉ ks) (dict_delitem d k)).
      lia.
    + assert (Hk : k ∉ d.*1).
      { rewrite <- dict_contains_elem. by rewrite Hc. }
      rewrite IH by done.
      rewrite <- dict_delitem_filter by done.
      by rewrite dict_delitem_absent.
Qed.

Lemma remove_keys_config d ks :
  NoDup d.*1 → (remove_keys d ks).1 = filter (λ kv, kv.1 ∉ ks) d.
Proof. intros Hd. unfold remove_keys. by rewrite remove_loop. Qed.

Lemma remove_keys_count d ks :
  NoDup d.*1 → (remove_keys d ks).2 = length (filter (λ kv, kv.1 ∈ ks) d).
Proof.
  intros Hd. unfold remove_keys. rewrite remove_loop by done. simpl.
  pose proof (length_filter_split (λ kv : string * string, kv.1 ∈ ks) d). lia.
Qed.

Lemma remove_keys_NoDup d ks : NoDup d.*1 → NoDup (remove_keys d ks).1.*1.
Proof.
  intros Hd. rewrite remove_keys_config by done.
  eapply sublist_NoDup; [exact Hd|]. apply fmap_sublist, sublist_filter.
Qed.
End remove_loop.

(** ** What each API handler computes *)

Lemma records_DataFrame_of_records (v : list Entry) :
  records (DataFrame_of_records v) = v.
Proof. by destruct v. Qed.

Lemma DataFrame_of_records_nonempty (v : list Entry) :
  v ≠ [] → DataFrame_of_records v = Frame v.
Proof. by destruct v. Qed.

Lemma records_load (data : FileData) :
  records <$> (DataFrame_of_records <$> data) = data.
Proof.
  apply map_eq. intros i. rewrite !lookup_fmap.
  destruct (data !! i) as [v|]; simpl; [|done].
  by rewrite records_DataFrame_of_records.
Qed.

Lemma records_after_update (data : FileData) (P : string) (config : pydict) :
  records <$> (<[P := DataFrame_of_items config]> (DataFrame_of_records <$> data))
  = <[P := rows_of_items config]> data.
Proof. by rewrite fmap_insert, records_load. Qed.

Lemma filter_key_unique (rows : list Entry) (K v : string) :
  unique_keys rows → mkEntry K v ∈ rows →
  filter (λ e, key e = K) rows = [mkEntry K v].
Proof.
  unfold unique_keys. induction rows as [|e l IH]; csimpl.
  - intros _ ?%elem_of_nil. done.
  - intros [Hk Hl]%NoDup_cons [<-|Hin]%elem_of_cons.
    + rewrite filter_cons_True by done. f_equal.
      destruct (filter _ l) as [|e' l'] eqn:E; [done|]. exfalso.
      assert (He' : e' ∈ filter (λ e, key e = K) l) by (rewrite E; left).
      apply list_elem_of_filter in He' as [Heq Hin]. apply Hk.
      simpl. rewrite <- Heq. by apply list_elem_of_fmap_2.
    + rewrite filter_cons_False; [by apply IH|].
      intros Heq. apply Hk. rewrite Heq.
      by apply (list_elem_of_fmap_2 key _ (mkEntry K v)).
Qed.

Ltac run_handler Hfile Hproject :=
  unfold mbind, M_bind, load_projects; rewrite Hfile; simpl;
  rewrite lookup_fmap, Hproject; simpl.

Section api.
Context (w : World) (data : FileData) (P : string).
Context (Hfile : file w = Some data).

(** *** Project absent *)

Section absent.
Context (Habsent : data !! P = None).

Lemma get_config_absent K :
  get_config (ConfigKey.mk P K) w
  = (inl (HTTPException 404 ("项目 '" +:+ P +:+ "' 不存在")), w).
Proof. unfold get_config. by run_handler Hfile Habsent. Qed.
End absent.

(** *** Project present and empty *)

Section empty_project.
Context (Hempty : data !! P = Some []).

Lemma set_config_empty K V :
  set_config (ConfigKey.mk P K) (ConfigValue.mk V) w
  = (inl (key_not_found K), w).
Proof. unfold set_config. by run_handler Hfile Hempty. Qed.

Lemma delete_config_empty K :
  delete_config (ConfigKey.mk P K) w = (inl (key_not_found K), w).
Proof. unfold delete_config. by run_handler Hfile Hempty. Qed.

Lemma batch_set_config_empty updates :
  batch_set_config (ConfigBatchUpdate.mk P updates) w
  = (inl (HTTPException 404 "项目为空，无法进行批量更新"), w).
Proof. unfold batch_set_config. by run_handler Hfile Hempty. Qed.

Lemma batch_remove_config_empty keys :
  batch_remove_config (ConfigBatchDelete.mk P keys) w
  = (inl (HTTPException 404 "项目为空，无法进行批量删除"), w).
Proof. unfold batch_remove_config. by run_handler Hfile Hempty. Qed.

Lemma get_config_empty K :
  get_config (ConfigKey.mk P K) w = (inl (KeyError "key"), w).
Proof. unfold get_config. by run_handler Hfile Hempty. Qed.
End empty_project.

(** *** Project present with at least one row *)

Section nonempty_project.
Context (rows : list Entry).
Context (Hproject : data !! P = Some rows) (Hrows : rows ≠ []).

Lemma set_config_nonempty K V :
  set_config (ConfigKey.mk P K) (ConfigValue.mk V) w
  = (inr (ConfigResponse.mk P K (PyStr V)),
     write_file w
       (<[P := rows_of_items (dict_setitem (to_dict rows) K V)]> data)).
Proof.
  unfold set_config. run_handler Hfile Hproject.
  destruct rows; [done|]. simpl. unfold save_projects.
  by rewrite records_after_update.
Qed.

Lemma delete_config_nonempty K :
  delete_config (ConfigKey.mk P K) w
  = (inr (ConfigResponse.mk P K (of_option (dict_get (to_dict rows) K))),
     write_file w
       (<[P := rows_of_items (dict_delitem (to_dict rows) K)]> data)).
Proof.
  unfold delete_config. run_handler Hfile Hproject.
  destruct rows; [done|]. simpl. unfold save_projects.
  by rewrite records_after_update.
Qed.

Lemma batch_set_config_nonempty updates :
  batch_set_config (ConfigBatchUpdate.mk P updates) w
  = (inr (BatchUpdateResponse.mk P
            ("批量更新成功，共更新 " +:+ pretty (length updates) +:+ " 个配置项")
            (length updates)),
     write_file w
       (<[P := rows_of_items (apply_updates (to_dict rows) updates)]> data)).
Proof.
  unfold batch_set_config. run_handler Hfile Hproject.
  destruct rows; [done|]. simpl. unfold save_projects.
  by rewrite records_after_update.
Qed.

Lemma batch_remove_config_nonempty keys :
  batch_remove_config (ConfigBatchDelete.mk P keys) w
  = (inr (BatchDeleteResponse.mk P
            ("批量删除成功，共删除 "
               +:+ pretty (remove_keys (to_dict rows) keys).2 +:+ " 个配置项")
            (remove_keys (to_dict rows) keys).2),
     write_file w
       (<[P := rows_of_items (remove_keys (to_dict rows) keys).1]> data)).
Proof.
  unfold batch_remove_config. run_handler Hfile Hproject.
  destruct rows as [|e rows']; [done|]. simpl.
  destruct (remove_keys _ keys) as [config n] eqn:E. simpl.
  unfold save_projects. by rewrite records_after_update.
Qed.

(** [get_config] on a project holding one row per key. *)
Lemma get_config_present K v :
  unique_keys rows → mkEntry K v ∈ rows →
  get_config (ConfigKey.mk P K) w
  = (inr (ConfigResponse.mk P K (PyStr v)), w).
Proof.
  intros Hu Hin. unfold get_config. run_handler Hfile Hproject.
  rewrite DataFrame_of_records_nonempty by done. simpl.
  assert (Hk : K ∈ key <$> rows)
    by apply (list_elem_of_fmap_2 key _ (mkEntry K v) Hin).
  rewrite bool_decide_true by done.
  by rewrite (filter_key_unique rows K v).
Qed.

Lemma get_config_missing K :
  K ∉ key <$> rows →
  get_config (ConfigKey.mk P K) w = (inl (key_not_found K), w).
Proof.
  intros Hk. unfold get_config. run_handler Hfile Hproject.
  rewrite DataFrame_of_records_nonempty by done. simpl.
  by rewrite bool_decide_false.
Qed.
End nonempty_project.
End api.

(** ** Rows after a rebuild from the dictionary *)

Section collapse.
Implicit Types (d : pydict) (rows : list Entry) (k v : string).

Lemma collapse_unique rows : unique_keys rows → collapse rows = rows.
Proof.
  intros Hu. unfold collapse. rewrite to_dict_unique by done.
  apply rows_of_items_of_rows.
Qed.

Lemma collapse_unique_keys rows : unique_keys (collapse rows).
Proof.
  unfold unique_keys, collapse. rewrite rows_of_items_keys. apply to_dict_NoDup.
Qed.

Lemma collapse_nonempty rows : rows ≠ [] → collapse rows ≠ [].
Proof.
  intros Hne Hnil. apply Hne, to_dict_nil.
  unfold collapse, rows_of_items in Hnil. by apply fmap_nil_inv in Hnil.
Qed.

Lemma elem_of_rows_dict_get d k v :
  NoDup d.*1 → mkEntry k v ∈ rows_of_items d ↔ dict_get d k = Some v.
Proof.
  intros Hd. rewrite elem_of_rows_of_items. split.
  - by apply dict_get_elem.
  - apply dict_get_Some_elem.
Qed.

Lemma replace_other K V rows :
  K ∉ key <$> rows →
  (λ e, if decide (key e = K) then mkEntry K V else e) <$> rows = rows.
Proof.
  induction rows as [|e rows IH]; csimpl; [done|].
  intros [? ?]%not_elem_of_cons. rewrite decide_False by done. by rewrite IH.
Qed.

Lemma rows_of_items_setitem d K V :
  NoDup d.*1 →
  rows_of_items (dict_setitem d K V) = upsert K V (rows_of_items d).
Proof.
  unfold upsert. rewrite rows_of_items_keys.
  induction d as [|[k' v'] d IH]; csimpl; [done|].
  intros [Hk Hd]%NoDup_cons. destruct (decide (k' = K)) as [->|Hne]; csimpl.
  - rewrite decide_True by left. f_equal.
    symmetry. apply replace_other. by rewrite rows_of_items_keys.
  - rewrite IH by done. destruct (decide (K ∈ d.*1)) as [Hin|Hnin].
    + by rewrite decide_True by by right.
    + rewrite decide_False; [done|]. rewrite not_elem_of_cons. split; congruence.
Qed.

Lemma collapse_keys rows k : k ∈ key <$> collapse rows ↔ k ∈ key <$> rows.
Proof. unfold collapse. rewrite rows_of_items_keys. apply to_dict_keys. Qed.
End collapse.

(** * The claims *)

(** C3. [set_config] on an existing project: when the project has no entry
    it answers 404 and changes nothing; otherwise it succeeds and stores the
    upsert of (K, V) into the project's rows: the value of K is replaced if K
    is present, the entry (K, V) is appended if it is absent. The rows are
    those of the project as rebuilt from the dict of the handler, which are
    the project's own rows when it holds one entry per key. *)
Theorem set_config_empty_or_upsert
    (w : World) (data : FileData) (P K V : string) (rows : list Entry)
    (Hfile : file w = Some data) (Hproject : data !! P = Some rows) :
  (rows = [] →
     set_config (ConfigKey.mk P K) (ConfigValue.mk V) w
     = (inl (HTTPException 404 ("配置项 '" +:+ K +:+ "' 不存在")), w))
  ∧ (rows ≠ [] →
     set_config (ConfigKey.mk P K) (ConfigValue.mk V) w
     = (inr (ConfigResponse.mk P K (PyStr V)),
        write_file w (<[P := upsert K V (collapse rows)]> data))
     ∧ (unique_keys rows → collapse rows = rows)).
Proof.
  split.
  - intros ->. apply (set_config_empty w data P Hfile Hproject).
  - intros Hne. split; [|apply collapse_unique].
    rewrite (set_config_nonempty w data P Hfile rows) by done.
    unfold collapse. by rewrite rows_of_items_setitem by apply to_dict_NoDup.
Qed.

Lemma set_config_empty_or_upsert_witness :
  set_config (ConfigKey.mk "svc" "timeout") (ConfigValue.mk "60") svc_empty
    = (inl (HTTPException 404 "配置项 'timeout' 不存在"), svc_empty)
  ∧ file (set_config (ConfigKey.mk "svc" "timeout") (ConfigValue.mk "60") svc_two).2
    = Some {[ "svc" := [mkEntry "timeout" "60"; mkEntry "retries" "3"] ]}
  ∧ file (set_config (ConfigKey.mk "svc" "host") (ConfigValue.mk "h") svc_two).2
    = Some {[ "svc" := [mkEntry "timeout" "30"; mkEntry "retries" "3";
                        mkEntry "host" "h"] ]}.
Proof.
  split_and!.
  - apply (set_config_empty_or_upsert svc_empty {[ "svc" := [] ]} "svc"
             "timeout" "60" []); reflexivity.
  - destruct (set_config_empty_or_upsert svc_two
                {[ "svc" := [mkEntry "timeout" "30"; mkEntry "retries" "3"] ]}
                "svc" "timeout" "60" [mkEntry "timeout" "30"; mkEntry "retries" "3"]
                eq_refl eq_refl) as [_ Hset].
    destruct Hset as [-> _]; [done|]. vm_compute. reflexivity.
  - destruct (set_config_empty_or_upsert svc_two
                {[ "svc" := [mkEntry "timeout" "30"; mkEntry "retries" "3"] ]}
                "svc" "host" "h" [mkEntry "timeout" "30"; mkEntry "retries" "3"]
                eq_refl eq_refl) as [_ Hset].
    destruct Hset as [-> _]; [done|]. vm_compute. reflexivity.
Defined.

(** The stored project after a successful API mutation: one row per key. *)
Lemma get_config_after_update
    (w : World) (data : FileData) (P K v : string) (config : pydict) :
  NoDup config.*1 → dict_get config K = Some v →
  get_config (ConfigKey.mk P K)
    (write_file w (<[P := rows_of_items config]> data))
  = (inr (ConfigResponse.mk P K (PyStr v)),
     write_file w (<[P := rows_of_items config]> data)).
Proof.
  intros Hd Hget.
  assert (Hin : mkEntry K v ∈ rows_of_items config)
    by by apply elem_of_rows_dict_get.
  apply (get_config_present (write_file w (<[P := rows_of_items config]> data))
           (<[P := rows_of_items config]> data) P eq_refl
           (rows_of_items config)).
  - apply lookup_insert_eq.
  - intros Hnil. rewrite Hnil in Hin. by apply elem_of_nil in Hin.
  - unfold unique_keys. by rewrite rows_of_items_keys.
  - done.
Qed.

(** C5. On an existing project with at least one entry, [set_config] for
    (K, V) succeeds and a [get_config] for K that follows returns V. *)
Theorem set_then_get
    (w : World) (data : FileData) (P K V : string) (rows : list Entry)
    (Hfile : file w = Some data) (Hproject : data !! P = Some rows)
    (Hrows : rows ≠ []) :
  let after := set_config (ConfigKey.mk P K) (ConfigValue.mk V) w in
  after.1 = inr (ConfigResponse.mk P K (PyStr V))
  ∧ get_config (ConfigKey.mk P K) after.2
    = (inr (ConfigResponse.mk P K (PyStr V)), after.2).
Proof.
  simpl. rewrite (set_config_nonempty w data P Hfile rows) by done. simpl.
  split; [done|]. apply get_config_after_update.
  - apply dict_setitem_NoDup, to_dict_NoDup.
  - rewrite dict_get_setitem. by rewrite decide_True.
Qed.

Lemma set_then_get_witness :
  get_config (ConfigKey.mk "svc" "timeout")
    (set_config (ConfigKey.mk "svc" "timeout") (ConfigValue.mk "60") svc_two).2
  = (inr (ConfigResponse.mk "svc" "timeout" (PyStr "60")),
     (set_config (ConfigKey.mk "svc" "timeout") (ConfigValue.mk "60") svc_two).2).
Proof.
  apply (set_then_get svc_two
           {[ "svc" := [mkEntry "timeout" "30"; mkEntry "retries" "3"] ]}
           "svc" "timeout" "60" [mkEntry "timeout" "30"; mkEntry "retries" "3"]);
    [reflexivity | reflexivity | discriminate].
Defined.

(** C10. [get_config] never writes: whatever it answers, the world after the
    call (persisted file, session store, number of saves) is the world
    before it. *)
Theorem get_config_no_write (config_key : ConfigKey.t) (w : World) :
  (get_config config_key w).2 = w.
Proof.
  unfold get_config, mbind, M_bind, load_projects.
  destruct (file w) as [data|]; simpl; [|done].
  destruct (_ !! _) as [df|]; simpl; [|done].
  destruct df as [|rows]; simpl; [done|].
  case_bool_decide; simpl; [|done].
  by destruct (value <$> filter _ rows) as [|? [|? ?]].
Qed.

Section batch_set.
Implicit Types (items : pydict) (k v : string).

Lemma last_item_elem items k v : last_item items k = Some v → (k, v) ∈ items.
Proof.
  unfold last_item. intros Hlast.
  apply fmap_Some in Hlast as ([k' v'] & Hlast & ->).
  apply last_Some_elem_of, list_elem_of_filter in Hlast as [Heq Hin].
  simpl in Heq. by subst.
Qed.

(** In a mapping, with one pair per key, the last pair of a key is the pair. *)
Lemma last_item_mapping items k v :
  NoDup items.*1 → (k, v) ∈ items → last_item items k = Some v.
Proof.
  intros Hd Hin. destruct (last_item items k) as [v'|] eqn:E.
  - apply last_item_elem in E.
    pose proof (dict_get_elem _ _ _ Hd Hin).
    pose proof (dict_get_elem _ _ _ Hd E). congruence.
  - apply last_item_None in E. exfalso. apply E.
    by apply (list_elem_of_fmap_2 fst _ (k, v)).
Qed.
End batch_set.

(** C6. On an existing project with at least one entry, [batch_set_config]
    with a mapping of n pairs answers [updated_items] = n, and afterwards
    [get_config] returns Vi for every pair (Ki, Vi) of the mapping. *)
Theorem batch_set_count_then_get
    (w : World) (data : FileData) (P : string) (rows : list Entry)
    (updates : pydict)
    (Hfile : file w = Some data) (Hproject : data !! P = Some rows)
    (Hrows : rows ≠ []) (Hmapping : NoDup updates.*1) :
  let after := batch_set_config (ConfigBatchUpdate.mk P updates) w in
  (∃ response, after.1 = inr response
     ∧ BatchUpdateResponse.updated_items response = length updates)
  ∧ ∀ K V, (K, V) ∈ updates →
      get_config (ConfigKey.mk P K) after.2
      = (inr (ConfigResponse.mk P K (PyStr V)), after.2).
Proof.
  simpl. rewrite (batch_set_config_nonempty w data P Hfile rows) by done.
  simpl. split; [by eexists|].
  intros K V Hin. apply get_config_after_update.
  - apply apply_updates_NoDup, to_dict_NoDup.
  - rewrite dict_get_apply_updates. by rewrite (last_item_mapping updates K V).
Qed.

Lemma batch_set_count_then_get_witness :
  let after :=
    batch_set_config
      (ConfigBatchUpdate.mk "svc" [("retries", "5"); ("host", "h")]) svc_two in
  (∃ response, after.1 = inr response
     ∧ BatchUpdateResponse.updated_items response = 2)
  ∧ get_config (ConfigKey.mk "svc" "retries") after.2
    = (inr (ConfigResponse.mk "svc" "retries" (PyStr "5")), after.2)
  ∧ get_config (ConfigKey.mk "svc" "host") after.2
    = (inr (ConfigResponse.mk "svc" "host" (PyStr "h")), after.2).
Proof.
  destruct (batch_set_count_then_get svc_two
              {[ "svc" := [mkEntry "timeout" "30"; mkEntry "retries" "3"] ]}
              "svc" [mkEntry "timeout" "30"; mkEntry "retries" "3"]
              [("retries", "5"); ("host", "h")]
              eq_refl eq_refl ltac:(discriminate) ltac:(compute_done))
    as [Hcount Hget].
  split; [exact Hcount|]. split; apply Hget.
  - left.
  - right. left.
Defined.

Section batch_remove.
Implicit Types (d : pydict) (rows : list Entry) (keys : list string).

Lemma filter_keys_fmap d keys :
  (filter (λ kv, kv.1 ∈ keys) d).*1 = filter (λ k, k ∈ keys) d.*1.
Proof.
  induction d as [|kv d IH]; [done|]. csimpl.
  rewrite !filter_cons. case_decide; csimpl; by rewrite IH.
Qed.

(** The counter of the loop is the number of distinct keys of the project
    that occur in the request. *)
Lemma remove_keys_count_present rows keys :
  (remove_keys (to_dict rows) keys).2
  = size ((list_to_set keys : gset string) ∩ list_to_set (key <$> rows)).
Proof.
  pose proof (to_dict_NoDup rows) as Hd.
  rewrite remove_keys_count by done.
  rewrite <- (length_fmap fst), filter_keys_fmap.
  rewrite <- (size_list_to_set (C := gset string))
    by by apply NoDup_filter.
  f_equal. apply set_eq. intros k.
  rewrite elem_of_intersection, !elem_of_list_to_set, list_elem_of_filter.
  by rewrite to_dict_keys.
Qed.

Lemma remove_keys_absent rows keys K :
  K ∈ keys → K ∉ key <$> rows_of_items (remove_keys (to_dict rows) keys).1.
Proof.
  intros HK. rewrite rows_of_items_keys.
  rewrite remove_keys_config by apply to_dict_NoDup.
  intros [[k v] [-> Hin]]%list_elem_of_fmap.
  apply list_elem_of_filter in Hin as [Hnot _]. done.
Qed.
End batch_remove.

(** C7. On an existing project with at least one entry, [batch_remove_config]
    answers [deleted_items] = the number of requested keys that the project
    held, and none of the requested keys is a key of the stored project
    afterwards; a requested key the project did not hold raises nothing. *)
Theorem batch_remove_count_then_absent
    (w : World) (data : FileData) (P : string) (rows : list Entry)
    (keys : list string)
    (Hfile : file w = Some data) (Hproject : data !! P = Some rows)
    (Hrows : rows ≠ []) :
  let after := batch_remove_config (ConfigBatchDelete.mk P keys) w in
  (∃ response, after.1 = inr response
     ∧ BatchDeleteResponse.deleted_items response
       = size ((list_to_set keys : gset string) ∩ list_to_set (key <$> rows)))
  ∧ ∃ rows', file after.2 = Some (<[P := rows']> data)
      ∧ ∀ K, K ∈ keys → K ∉ key <$> rows'.
Proof.
  simpl. rewrite (batch_remove_config_nonempty w data P Hfile rows) by done.
  simpl. split.
  - eexists. split; [done|]. simpl. apply remove_keys_count_present.
  - eexists. split; [done|]. intros K. apply remove_keys_absent.
Qed.

Lemma batch_remove_count_then_absent_witness :
  let after :=
    batch_remove_config
      (ConfigBatchDelete.mk "svc" ["retries"; "port"; "retries"]) svc_two in
  (∃ response, after.1 = inr response
     ∧ BatchDeleteResponse.deleted_items response = 1)
  ∧ ∃ rows', file after.2 = Some (<[ "svc" := rows' ]> {[ "svc" := [mkEntry "timeout" "30"; mkEntry "retries" "3"] ]})
      ∧ ∀ K, K ∈ ["retries"; "port"; "retries"] → K ∉ key <$> rows'.
Proof.
  exact (batch_remove_count_then_absent svc_two
           {[ "svc" := [mkEntry "timeout" "30"; mkEntry "retries" "3"] ]}
           "svc" [mkEntry "timeout" "30"; mkEntry "retries" "3"]
           ["retries"; "port"; "retries"]
           eq_refl eq_refl ltac:(discriminate)).
Defined.

(** C9. On an existing project with at least one entry, stored with or
    without repeated keys, each of [set_config], [delete_config],
    [batch_set_config] and [batch_remove_config] stores a project with one
    row per key; a key the request does not touch keeps the value of its
    last row, and the request itself is carried out. *)
Theorem api_mutations_collapse_duplicates
    (w : World) (data : FileData) (P : string) (rows : list Entry)
    (Hfile : file w = Some data) (Hproject : data !! P = Some rows)
    (Hrows : rows ≠ []) :
  (∀ K V, ∃ rows',
      file (set_config (ConfigKey.mk P K) (ConfigValue.mk V) w).2
        = Some (<[P := rows']> data)
      ∧ unique_keys rows'
      ∧ ∀ k v, mkEntry k v ∈ rows' ↔
          if decide (K = k) then v = V else last_value rows k = Some v)
  ∧ (∀ K, ∃ rows',
      file (delete_config (ConfigKey.mk P K) w).2 = Some (<[P := rows']> data)
      ∧ unique_keys rows'
      ∧ ∀ k v, mkEntry k v ∈ rows' ↔ k ≠ K ∧ last_value rows k = Some v)
  ∧ (∀ updates, ∃ rows',
      file (batch_set_config (ConfigBatchUpdate.mk P updates) w).2
        = Some (<[P := rows']> data)
      ∧ unique_keys rows'
      ∧ ∀ k v, mkEntry k v ∈ rows' ↔
          match last_item updates k with
          | Some u => v = u
          | None => last_value rows k = Some v
          end)
  ∧ (∀ keys, ∃ rows',
      file (batch_remove_config (ConfigBatchDelete.mk P keys) w).2
        = Some (<[P := rows']> data)
      ∧ unique_keys rows'
      ∧ ∀ k v, mkEntry k v ∈ rows' ↔ (k ∉ keys) ∧ last_value rows k = Some v).
Proof.
  pose proof (to_dict_NoDup rows) as Hd. split_and!.
  - intros K V. rewrite (set_config_nonempty w data P Hfile rows) by done.
    eexists. split; [done|].
    pose proof (dict_setitem_NoDup _ K V Hd) as Hd'. split.
    + unfold unique_keys. by rewrite rows_of_items_keys.
    + intros k v. rewrite elem_of_rows_dict_get by done.
      rewrite dict_get_setitem, dict_get_to_dict.
      case_decide; [|done]. split; congruence.
  - intros K. rewrite (delete_config_nonempty w data P Hfile rows) by done.
    eexists. split; [done|].
    pose proof (dict_delitem_NoDup _ K Hd) as Hd'. split.
    + unfold unique_keys. by rewrite rows_of_items_keys.
    + intros k v. rewrite elem_of_rows_dict_get by done.
      rewrite dict_get_delitem, dict_get_to_dict by done.
      case_decide; [subst; split; [done | tauto] | split; [split; congruence | tauto]].
  - intros updates.
    rewrite (batch_set_config_nonempty w data P Hfile rows) by done.
    eexists. split; [done|].
    pose proof (apply_updates_NoDup _ updates Hd) as Hd'. split.
    + unfold unique_keys. by rewrite rows_of_items_keys.
    + intros k v. rewrite elem_of_rows_dict_get by done.
      rewrite dict_get_apply_updates, dict_get_to_dict.
      destruct (last_item updates k); [split; congruence | done].
  - intros keys.
    rewrite (batch_remove_config_nonempty w data P Hfile rows) by done.
    eexists. split; [done|].
    pose proof (remove_keys_NoDup _ keys Hd) as Hd'. split.
    + unfold unique_keys. by rewrite rows_of_items_keys.
    + intros k v. rewrite elem_of_rows_of_items.
      rewrite remove_keys_config, list_elem_of_filter by done. simpl.
      rewrite <- dict_get_to_dict. split.
      * intros [? ?]. split; [done|]. by apply dict_get_elem.
      * intros [? ?]. split; [done|]. by apply dict_get_Some_elem.
Qed.

Lemma api_mutations_collapse_duplicates_witness :
  ¬ unique_keys [mkEntry "timeout" "30"; mkEntry "retries" "3"; mkEntry "timeout" "60"]
  ∧ file (set_config (ConfigKey.mk "svc" "host") (ConfigValue.mk "h") svc_repeated).2
    = Some {[ "svc" := [mkEntry "timeout" "60"; mkEntry "retries" "3";
                        mkEntry "host" "h"] ]}
  ∧ (∃ rows',
      file (delete_config (ConfigKey.mk "svc" "retries") svc_repeated).2
        = Some (<[ "svc" := rows' ]>
                  {[ "svc" := [mkEntry "timeout" "30"; mkEntry "retries" "3";
                               mkEntry "timeout" "60"] ]})
      ∧ unique_keys rows'
      ∧ ∀ k v, mkEntry k v ∈ rows' ↔
          k ≠ "retries"
          ∧ last_value [mkEntry "timeout" "30"; mkEntry "retries" "3";
                        mkEntry "timeout" "60"] k = Some v).
Proof.
  split; [compute_done|].
  destruct (api_mutations_collapse_duplicates svc_repeated
              {[ "svc" := [mkEntry "timeout" "30"; mkEntry "retries" "3";
                           mkEntry "timeout" "60"] ]}
              "svc" [mkEntry "timeout" "30"; mkEntry "retries" "3";
                     mkEntry "timeout" "60"]
              eq_refl eq_refl ltac:(discriminate))
    as (_ & Hdelete & _ & _).
  split; [compute_done | apply Hdelete].
Defined.

(** C8. Saving a store and loading the file back gives the same projects
    with the same entries, in the same order. *)
Theorem save_then_load (projects : Store) (w : World) :
  ∃ loaded : Store,
    load_projects (save_projects projects w).2
      = (inr loaded, (save_projects projects w).2)
    ∧ dom loaded = dom projects
    ∧ ∀ name, records <$> loaded !! name = records <$> projects !! name.
Proof.
  exists (DataFrame_of_records <$> (records <$> projects)). split_and!.
  - done.
  - by rewrite !dom_fmap_L.
  - intros name. rewrite !lookup_fmap.
    destruct (projects !! name) as [df|]; simpl; [|done].
    by rewrite records_DataFrame_of_records.
Qed.

(** The frames themselves come back too, except that a frame with the two
    columns and no row comes back without its columns. *)
Lemma save_then_load_frames (projects : Store) (w : World) :
  map_Forall (λ _ df, df ≠ Frame []) projects →
  load_projects (save_projects projects w).2
    = (inr projects, (save_projects projects w).2).
Proof.
  intros Hne. unfold load_projects, save_projects. simpl. f_equal. f_equal.
  apply map_eq. intros name. rewrite !lookup_fmap.
  destruct (projects !! name) as [df|] eqn:E; simpl; [|done].
  specialize (Hne name df E). by destruct df as [|[|e rows]].
Qed.

Example load_drops_columns :
  (load_projects (save_projects {[ "svc" := Frame [] ]} svc_two).2).1
  = inr ({[ "svc" := NoColumns ]} : Store).
Proof. vm_compute. reflexivity. Qed.

(** A new session started after a save sees the saved entries. *)
Lemma save_then_init_session (projects : Store) (w : World) :
  let restarted := (init_session (save_projects projects w).2).2 in
  records <$> session_projects restarted = records <$> projects.
Proof.
  simpl. apply map_eq. intros name. rewrite !lookup_fmap.
  destruct (projects !! name) as [df|]; simpl; [|done].
  by rewrite records_DataFrame_of_records.
Qed.

(** ** The batch add button *)

Lemma get_current_project_selected (w : World) (cur : string) :
  current_project w = Some cur → cur ≠ "" →
  get_current_project w = (inr (Some cur), w).
Proof.
  intros Hcur Hname. unfold get_current_project. rewrite Hcur.
  by destruct cur.
Qed.

Lemma existing_keys_records (df : DataFrame) (w : World) :
  (if empty df then mret (∅ : gset string)
   else keys ← column_key df; mret (list_to_set keys)) w
  = (inr (list_to_set (key <$> records df)), w).
Proof. by destruct df as [|[|e rows]]. Qed.

Lemma elem_of_duplicates (existing new : list string) (k : string) :
  k ∈ (list_to_set existing : gset string) ∩ list_to_set new
  ↔ k ∈ existing ∧ k ∈ new.
Proof. by rewrite elem_of_intersection, !elem_of_list_to_set. Qed.

Lemma batch_add_button_eq
    (w : World) (cur : string) (df : DataFrame) (batch_data : list Entry) :
  current_project w = Some cur → cur ≠ "" →
  session_projects w !! cur = Some df →
  batch_add_button batch_data w =
    let duplicates : gset string :=
      list_to_set (key <$> records df) ∩ list_to_set (key <$> batch_data) in
    if bool_decide (duplicates ≠ ∅) then (inr (DuplicateKeys duplicates), w)
    else (inr Rerun, stored w cur (concat df batch_data)).
Proof.
  intros Hcur Hname Hdf. unfold batch_add_button.
  unfold mbind at 1. unfold M_bind at 1.
  rewrite (get_current_project_selected w cur) by done.
  unfold try_except, mbind, M_bind, session_getitem. rewrite Hdf.
  rewrite existing_keys_records. simpl.
  by case_bool_decide.
Qed.

(** C4. The batch add on the selected project: when a key of the batch is
    already a key of the project, the answer is the duplicate keys error and
    the world (session store, file, number of saves) is unchanged; when no
    key of the batch is a key of the project, all the rows of the batch are
    appended to the project and the session store is saved. *)
Theorem batch_add_all_or_nothing
    (w : World) (cur : string) (df : DataFrame) (batch_data : list Entry)
    (Hcur : current_project w = Some cur) (Hname : cur ≠ "")
    (Hdf : session_projects w !! cur = Some df) :
  ((∃ k, k ∈ key <$> batch_data ∧ k ∈ key <$> records df) →
     ∃ duplicates, batch_add_button batch_data w = (inr (DuplicateKeys duplicates), w)
       ∧ ∀ k, k ∈ duplicates ↔ k ∈ key <$> batch_data ∧ k ∈ key <$> records df)
  ∧ ((∀ k, k ∈ key <$> batch_data → k ∉ key <$> records df) →
     ∃ w', batch_add_button batch_data w = (inr Rerun, w')
       ∧ session_projects w'
         = <[cur := Frame (records df ++ batch_data)]> (session_projects w)
       ∧ file w' = Some (records <$> session_projects w')).
Proof.
  rewrite (batch_add_button_eq w cur df) by done. simpl. split.
  - intros (k & Hk1 & Hk2). rewrite bool_decide_true.
    + eexists. split; [done|]. intros k'. rewrite elem_of_duplicates. tauto.
    + intros Hnone. apply (not_elem_of_empty (C := gset string) k).
      rewrite <- Hnone. by apply elem_of_duplicates.
  - intros Hfresh. rewrite bool_decide_false.
    + eexists. split; [done|]. done.
    + intros Hsome. apply Hsome, elem_of_equiv_empty_L. intros k.
      rewrite elem_of_duplicates. intros [? ?]. by apply (Hfresh k).
Qed.

Lemma batch_add_all_or_nothing_witness :
  (∃ duplicates,
     batch_add_button [mkEntry "host" "h"; mkEntry "timeout" "60"] ui_svc
       = (inr (DuplicateKeys duplicates), ui_svc)
     ∧ ∀ k, k ∈ duplicates ↔
         k ∈ key <$> [mkEntry "host" "h"; mkEntry "timeout" "60"]
         ∧ k ∈ key <$> [mkEntry "timeout" "30"])
  ∧ (∃ w',
     batch_add_button [mkEntry "host" "h"; mkEntry "port" "80"] ui_svc
       = (inr Rerun, w')
     ∧ session_projects w'
       = <[ "svc" := Frame ([mkEntry "timeout" "30"]
                            ++ [mkEntry "host" "h"; mkEntry "port" "80"]) ]>
           (session_projects ui_svc)
     ∧ file w' = Some (records <$> session_projects w')).
Proof.
  split.
  - apply (batch_add_all_or_nothing ui_svc "svc" (Frame [mkEntry "timeout" "30"])
             [mkEntry "host" "h"; mkEntry "timeout" "60"]
             eq_refl ltac:(discriminate) eq_refl).
    exists "timeout". split; compute_done.
  - apply (batch_add_all_or_nothing ui_svc "svc" (Frame [mkEntry "timeout" "30"])
             [mkEntry "host" "h"; mkEntry "port" "80"]
             eq_refl ltac:(discriminate) eq_refl).
    intros k Hk Hk'. apply list_elem_of_singleton in Hk'. subst k.
    revert Hk. compute_done.
Defined.

(** ** Deleting twice *)

Section delete_twice_lemmas.
Implicit Types (rows : list Entry) (K : string).

Lemma delitem_only_key rows K :
  (∀ e, e ∈ rows → key e = K) → dict_delitem (to_dict rows) K = [].
Proof.
  intros Hall. rewrite dict_delitem_filter by apply to_dict_NoDup.
  destruct (filter _ (to_dict rows)) as [|[k v] l] eqn:E; [done|]. exfalso.
  assert (Hin : (k, v) ∈ filter (λ kv, kv.1 ≠ K) (to_dict rows))
    by (rewrite E; left).
  apply list_elem_of_filter in Hin as [Hne Hin]. simpl in Hne.
  assert (Hk : k ∈ key <$> rows).
  { apply to_dict_keys. by apply (list_elem_of_fmap_2 fst _ (k, v)). }
  apply list_elem_of_fmap in Hk as (e & -> & He). by apply Hne, Hall.
Qed.

Lemma delitem_keeps_other rows K e :
  e ∈ rows → key e ≠ K → key e ∈ (dict_delitem (to_dict rows) K).*1.
Proof.
  intros He Hne. rewrite dict_delitem_keys by apply to_dict_NoDup.
  apply list_elem_of_filter. split; [done|].
  apply to_dict_keys. by apply list_elem_of_fmap_2.
Qed.

Lemma delitem_key_gone rows K : K ∉ (dict_delitem (to_dict rows) K).*1.
Proof.
  rewrite dict_delitem_keys by apply to_dict_NoDup.
  intros [Hne _]%list_elem_of_filter. done.
Qed.
End delete_twice_lemmas.

(** C2, as the code has it. On an existing project, [delete_config] for K
    called twice in a row answers both times, the second time with no value,
    when the project holds an entry with a key other than K. The empty
    project guard answers 404 otherwise: on the first call when the project
    has no entry, on the second call when K is the key of every entry (so
    the first call, which answers, leaves the project empty). *)
Theorem delete_twice
    (w : World) (data : FileData) (P K : string) (rows : list Entry)
    (Hfile : file w = Some data) (Hproject : data !! P = Some rows) :
  ((∃ e, e ∈ rows ∧ key e ≠ K) → delete_twice_succeeds w P K)
  ∧ (rows = [] →
       delete_config (ConfigKey.mk P K) w
       = (inl (HTTPException 404 ("配置项 '" +:+ K +:+ "' 不存在")), w))
  ∧ (rows ≠ [] → (∀ e, e ∈ rows → key e = K) →
       ∃ r1 w1,
         delete_config (ConfigKey.mk P K) w = (inr r1, w1)
         ∧ delete_config (ConfigKey.mk P K) w1
           = (inl (HTTPException 404 ("配置项 '" +:+ K +:+ "' 不存在")), w1)).
Proof.
  split_and!.
  - intros (e & He & Hne).
    assert (Hrows : rows ≠ []).
    { intros ->. by apply elem_of_nil in He. }
    set (rows1 := rows_of_items (dict_delitem (to_dict rows) K)).
    assert (Hrows1 : rows1 ≠ []).
    { pose proof (delitem_keeps_other rows K e He Hne) as Hin.
      rewrite <- rows_of_items_keys in Hin. fold rows1 in Hin.
      intros Hnil. rewrite Hnil in Hin. by apply elem_of_nil in Hin. }
    unfold delete_twice_succeeds.
    rewrite (delete_config_nonempty w data P Hfile rows) by done.
    do 2 eexists.
    rewrite (delete_config_nonempty (write_file w (<[P := rows1]> data))
               (<[P := rows1]> data) P eq_refl rows1)
      by (done || apply lookup_insert_eq).
    do 2 eexists. split_and!; [done..|]. simpl.
    assert (dict_get (to_dict rows1) K = None) as ->; [|done].
    apply dict_get_None. rewrite to_dict_keys. unfold rows1.
    rewrite rows_of_items_keys. apply delitem_key_gone.
  - intros ->. apply (delete_config_empty w data P Hfile Hproject).
  - intros Hrows Hall.
    rewrite (delete_config_nonempty w data P Hfile rows) by done.
    do 2 eexists. split; [done|].
    rewrite delitem_only_key by done.
    apply (delete_config_empty (write_file w (<[P := []]> data))
             (<[P := []]> data) P eq_refl).
    apply lookup_insert_eq.
Qed.

Lemma delete_twice_witness :
  delete_twice_succeeds svc_two "svc" "timeout"
  ∧ delete_config (ConfigKey.mk "svc" "timeout") svc_empty
    = (inl (HTTPException 404 "配置项 'timeout' 不存在"), svc_empty)
  ∧ ∃ r1 w1,
      delete_config (ConfigKey.mk "svc" "timeout") svc_one = (inr r1, w1)
      ∧ delete_config (ConfigKey.mk "svc" "timeout") w1
        = (inl (HTTPException 404 "配置项 'timeout' 不存在"), w1).
Proof.
  split_and!.
  - apply (delete_twice svc_two
             {[ "svc" := [mkEntry "timeout" "30"; mkEntry "retries" "3"] ]}
             "svc" "timeout" [mkEntry "timeout" "30"; mkEntry "retries" "3"]
             eq_refl eq_refl).
    exists (mkEntry "retries" "3"). split; [|discriminate].
    right. left.
  - apply (delete_twice svc_empty {[ "svc" := [] ]} "svc" "timeout" []
             eq_refl eq_refl). reflexivity.
  - apply (delete_twice svc_one {[ "svc" := [mkEntry "timeout" "30"] ]}
             "svc" "timeout" [mkEntry "timeout" "30"] eq_refl eq_refl).
    + discriminate.
    + intros e ->%list_elem_of_singleton. reflexivity.
Defined.

(** C2 as stated fails when K is the only entry of the project: the first
    call empties the project and the second call answers 404. *)
Lemma delete_twice_only_entry_fails :
  file svc_one = Some {[ "svc" := [mkEntry "timeout" "30"] ]}
  ∧ ({[ "svc" := [mkEntry "timeout" "30"] ]} : FileData) !! "svc"
    = Some [mkEntry "timeout" "30"]
  ∧ ¬ delete_twice_succeeds svc_one "svc" "timeout".
Proof.
  split_and!; [reflexivity..|].
  intros (r1 & w1 & r2 & w2 & H1 & H2 & _).
  rewrite (delete_config_nonempty svc_one {[ "svc" := [mkEntry "timeout" "30"] ]}
             "svc" eq_refl [mkEntry "timeout" "30"] eq_refl) in H1
    by discriminate.
  injection H1 as <- <-.
  rewrite (delete_config_empty _ {[ "svc" := [] ]} "svc") in H2;
    [discriminate | compute_done..].
Qed.

(** ** Key uniqueness along sequences of operations *)

Section uniqueness.
Implicit Types (w : World) (rows : list Entry) (df : DataFrame).

Lemma world_unique_write_file w (data : FileData) P (config : pydict) :
  world_unique w → file w = Some data → NoDup config.*1 →
  world_unique (write_file w (<[P := rows_of_items config]> data)).
Proof.
  intros [Hs Hf] Hfile Hd. split; [done|]. simpl.
  rewrite Hfile in Hf. simpl in Hf.
  apply map_Forall_insert_2; [|done].
  unfold unique_keys. by rewrite rows_of_items_keys.
Qed.

Lemma world_unique_stored w cur df :
  world_unique w → unique_keys (records df) → world_unique (stored w cur df).
Proof.
  intros [Hs Hf] Hdf.
  assert (Hs' : store_unique (<[cur := df]> (session_projects w)))
    by by apply map_Forall_insert_2.
  split; [done|]. simpl. by apply map_Forall_fmap.
Qed.

Lemma session_unique w cur df :
  world_unique w → session_projects w !! cur = Some df →
  unique_keys (records df).
Proof. intros [Hs _] Hdf. by apply (Hs cur df). Qed.

Lemma unique_keys_snoc rows k v :
  unique_keys rows → k ∉ key <$> rows → unique_keys (rows ++ [mkEntry k v]).
Proof.
  unfold unique_keys. intros Hu Hk. rewrite fmap_app. apply NoDup_app.
  split_and!; [done | | apply NoDup_singleton].
  intros x Hx ->%list_elem_of_singleton. done.
Qed.

Lemma unique_keys_edit rows selected_key new_value :
  unique_keys rows →
  unique_keys ((λ e, if decide (key e = selected_key)
                     then mkEntry (key e) new_value else e) <$> rows).
Proof.
  unfold unique_keys. intros Hu.
  rewrite <- list_fmap_compose.
  erewrite list_fmap_ext; [exact Hu|].
  intros i e _. simpl. by case_decide.
Qed.

Lemma unique_keys_filter rows (P : Entry → Prop) `{!∀ e, Decision (P e)} :
  unique_keys rows → unique_keys (filter P rows).
Proof.
  unfold unique_keys. intros Hu. eapply sublist_NoDup; [exact Hu|].
  apply fmap_sublist, sublist_filter.
Qed.

Lemma unique_keys_app rows batch_data :
  unique_keys rows → unique_keys batch_data →
  (list_to_set (key <$> rows) : gset string) ∩ list_to_set (key <$> batch_data) = ∅ →
  unique_keys (rows ++ batch_data).
Proof.
  unfold unique_keys. intros Hu Hb Hnone. rewrite fmap_app.
  apply NoDup_app. split_and!; [done | | done].
  intros k Hk Hk'. apply (not_elem_of_empty (C := gset string) k).
  rewrite <- Hnone. by apply elem_of_duplicates.
Qed.
End uniqueness.

Ltac api_cases w :=
  unfold mbind, M_bind, load_projects;
  let data := fresh "data" in
  let Hfile := fresh "Hfile" in
  destruct (file w) as [data|] eqn:Hfile; simpl; [|done];
  rewrite lookup_fmap;
  let rows := fresh "rows" in
  let Hproject := fresh "Hproject" in
  match goal with
  | |- context [data !! ?P] =>
      destruct (data !! P) as [rows|] eqn:Hproject; simpl; [|done]
  end;
  destruct rows as [|? ?]; simpl; [done|].

Section api_uniqueness.
Context (w : World) (Hw : world_unique w).

Lemma set_config_unique config_key config_value :
  world_unique (set_config config_key config_value w).2.
Proof.
  unfold set_config. api_cases w.
  rewrite records_after_update.
  apply world_unique_write_file; [done..|].
  apply dict_setitem_NoDup, to_dict_NoDup.
Qed.

Lemma delete_config_unique config_key :
  world_unique (delete_config config_key w).2.
Proof.
  unfold delete_config. api_cases w.
  rewrite records_after_update.
  apply world_unique_write_file; [done..|].
  apply dict_delitem_NoDup, to_dict_NoDup.
Qed.

Lemma batch_set_config_unique batch_update :
  world_unique (batch_set_config batch_update w).2.
Proof.
  unfold batch_set_config. api_cases w.
  rewrite records_after_update.
  apply world_unique_write_file; [done..|].
  apply apply_updates_NoDup, to_dict_NoDup.
Qed.

Lemma batch_remove_config_unique batch_delete :
  world_unique (batch_remove_config batch_delete w).2.
Proof.
  unfold batch_remove_config. api_cases w.
  match goal with
  | |- context [remove_keys ?d ?ks] =>
      pose proof (remove_keys_NoDup d ks (to_dict_NoDup _)) as Hd;
      destruct (remove_keys d ks) as [config n]
  end.
  simpl. rewrite records_after_update.
  by apply world_unique_write_file.
Qed.
End api_uniqueness.

Ltac ui_cases w name df Hdf :=
  unfold mbind at 1; unfold M_bind at 1; unfold get_current_project;
  let cur := fresh "cur" in
  destruct (current_project w) as [cur|]; [destruct cur as [|? ?]|];
  simpl; [done| |done];
  match goal with
  | |- context [String ?a ?s] => generalize (String a s); intros name
  end;
  unfold try_except, mbind, M_bind, session_getitem;
  destruct (session_projects w !! name) as [df|] eqn:Hdf; simpl; [|done].

Section ui_uniqueness.
Context (w : World) (Hw : world_unique w).

Lemma add_config_form_unique key value :
  world_unique (add_config_form key value w).2.
Proof.
  unfold add_config_form. ui_cases w name df Hdf.
  destruct (bool_decide _ && bool_decide _); simpl; [|done].
  destruct df as [|rows]; simpl; [done|].
  case_bool_decide as Hk; simpl; [done|].
  apply (world_unique_stored w name (Frame (rows ++ [mkEntry key value])));
    [done|].
  apply unique_keys_snoc; [|done].
  apply (session_unique w name (Frame rows)); done.
Qed.

Lemma edit_config_form_unique selected_key new_value :
  world_unique (edit_config_form selected_key new_value w).2.
Proof.
  unfold edit_config_form. ui_cases w name df Hdf.
  case_bool_decide; simpl; [|done].
  destruct df as [|rows]; simpl; [done|].
  case_bool_decide; simpl; [|done].
  apply (world_unique_stored w name (Frame _)); [done|].
  apply unique_keys_edit, (session_unique w name (Frame rows)); done.
Qed.

Lemma delete_button_unique selected_key :
  world_unique (delete_button selected_key w).2.
Proof.
  unfold delete_button. ui_cases w name df Hdf.
  case_bool_decide; simpl; [|done].
  destruct df as [|rows]; simpl; [done|].
  case_bool_decide; simpl; [|done].
  apply (world_unique_stored w name (Frame _)); [done|].
  apply unique_keys_filter, (session_unique w name (Frame rows)); done.
Qed.

Lemma batch_delete_button_unique batch_data :
  world_unique (batch_delete_button batch_data w).2.
Proof.
  unfold batch_delete_button. ui_cases w name df Hdf.
  destruct df as [|rows]; simpl; [done|].
  apply (world_unique_stored w name (Frame _)); [done|].
  apply unique_keys_filter, (session_unique w name (Frame rows)); done.
Qed.

Lemma batch_add_button_unique batch_data :
  unique_keys batch_data →
  world_unique (batch_add_button batch_data w).2.
Proof.
  intros Hbatch. unfold batch_add_button. ui_cases w name df Hdf.
  rewrite existing_keys_records. simpl.
  case_bool_decide as Hdup; simpl; [done|].
  apply (world_unique_stored w name (concat df batch_data)); [done|].
  apply unique_keys_app; [by apply (session_unique w name df) | done..].
Qed.
End ui_uniqueness.

(** Every operation other than a batch add of rows with a repeated key keeps
    the keys of every project pairwise distinct, in the session store and in
    the file. *)
Lemma step_unique (w : World) (op : Op) :
  batch_unique op → world_unique w → world_unique (step w op).
Proof.
  intros Hop Hw. destruct op; simpl.
  - by apply add_config_form_unique.
  - by apply edit_config_form_unique.
  - by apply delete_button_unique.
  - by apply batch_add_button_unique.
  - by apply batch_delete_button_unique.
  - by apply set_config_unique.
  - by apply delete_config_unique.
  - by apply batch_set_config_unique.
  - by apply batch_remove_config_unique.
Qed.

Lemma run_unique (ops : list Op) (w : World) :
  Forall batch_unique ops → world_unique w → world_unique (run ops w).
Proof.
  revert w. induction ops as [|op ops IH]; intros w Hops Hw; [done|].
  apply Forall_cons in Hops as [Hop Hops].
  apply IH; [done|]. by apply step_unique.
Qed.

(** C1, on the code. The batch add compares the keys of the file with the
    keys of the project only: a table in which a key comes twice is appended
    as it is, and the project then holds two entries with that key, in the
    session store and in the file. *)
Theorem batch_add_repeated_key_breaks_uniqueness :
  world_unique ui_svc
  ∧ run [UiBatchAdd [mkEntry "host" "a"; mkEntry "host" "b"]] ui_svc
    = {| file := Some {[ "svc" := [mkEntry "timeout" "30"; mkEntry "host" "a";
                                   mkEntry "host" "b"] ]};
         session_projects :=
           {[ "svc" := Frame [mkEntry "timeout" "30"; mkEntry "host" "a";
                              mkEntry "host" "b"] ]};
         current_project := Some "svc";
         saves := 4 |}
  ∧ ¬ world_unique (run [UiBatchAdd [mkEntry "host" "a"; mkEntry "host" "b"]] ui_svc).
Proof. cbv zeta. split_and!; compute_done. Qed.

(** ** The scenario of a new project

    A project created empty refuses [set_config]; once a file with
    timeout = 30 is added from the page, [get_config] reads 30, and a
    [set_config] to 60 is read back as 60. *)
Example svc_scenario :
  let ck := ConfigKey.mk "svc" "timeout" in
  (set_config ck (ConfigValue.mk "30") svc_empty).1
    = inl (HTTPException 404 "配置项 'timeout' 不存在")
  ∧ let imported := (batch_add_button [mkEntry "timeout" "30"] svc_empty).2 in
    (get_config ck imported).1 = inr (ConfigResponse.mk "svc" "timeout" (PyStr "30"))
    ∧ let updated := (set_config ck (ConfigValue.mk "60") imported).2 in
      (get_config ck updated).1
      = inr (ConfigResponse.mk "svc" "timeout" (PyStr "60")).
Proof. cbv zeta. split_and!; compute_done. Qed.

(** * Further properties of the code *)

(** ** API handlers: what they leave alone *)

Lemma mutation_frame_update (w : World) (data : FileData) (P : string)
    (rows rows' : list Entry) :
  file w = Some data → data !! P = Some rows →
  mutation_frame P w (inr (), write_file w (<[P := rows']> data)).
Proof.
  intros Hfile Hproject. simpl. split_and!; [done..|].
  exists data, (<[P := rows']> data). split_and!; [done..| |].
  - by apply dom_insert_lookup_L.
  - intros Q HQ. by apply lookup_insert_ne.
Qed.

(** X1. [set_config], [delete_config], [batch_set_config] and
    [batch_remove_config] either raise and leave the world as it was, or
    answer after one save that touches neither the session state, nor the
    names of the projects in the file, nor the entries of the other
    projects. *)
Theorem api_mutation_frame (w : World) :
  (∀ P K V,
     mutation_frame P w (set_config (ConfigKey.mk P K) (ConfigValue.mk V) w))
  ∧ (∀ P K, mutation_frame P w (delete_config (ConfigKey.mk P K) w))
  ∧ (∀ P updates,
       mutation_frame P w (batch_set_config (ConfigBatchUpdate.mk P updates) w))
  ∧ (∀ P keys,
       mutation_frame P w (batch_remove_config (ConfigBatchDelete.mk P keys) w)).
Proof.
  split_and!; intros P.
  - intros K V. unfold set_config. api_cases w.
    rewrite records_after_update. eapply (mutation_frame_update w); eassumption.
  - intros K. unfold delete_config. api_cases w.
    rewrite records_after_update. eapply (mutation_frame_update w); eassumption.
  - intros updates. unfold batch_set_config. api_cases w.
    rewrite records_after_update. eapply (mutation_frame_update w); eassumption.
  - intros keys. unfold batch_remove_config. api_cases w.
    destruct (remove_keys _ keys) as [config n]. simpl.
    rewrite records_after_update. eapply (mutation_frame_update w); eassumption.
Qed.

(** ** API handlers: errors *)

(** X2. [get_config] for a key that no entry of the project carries: the
    answer is 404 when the project has entries, and the [KeyError] of the
    missing column when it has none (an empty project is loaded as a frame
    without columns). Nothing is written. *)
Theorem get_config_key_absent
    (w : World) (data : FileData) (P K : string) (rows : list Entry)
    (Hfile : file w = Some data) (Hproject : data !! P = Some rows)
    (Habsent : K ∉ key <$> rows) :
  get_config (ConfigKey.mk P K) w
  = (inl (match rows with
          | [] => KeyError "key"
          | _ => HTTPException 404 ("配置项 '" +:+ K +:+ "' 不存在")
          end), w).
Proof.
  destruct rows as [|e rows'].
  - apply (get_config_empty w data P Hfile Hproject).
  - by apply (get_config_missing w data P Hfile (e :: rows')).
Qed.

Lemma get_config_key_absent_witness :
  get_config (ConfigKey.mk "svc" "host") svc_two
    = (inl (HTTPException 404 "配置项 'host' 不存在"), svc_two)
  ∧ get_config (ConfigKey.mk "svc" "host") svc_empty
    = (inl (KeyError "key"), svc_empty).
Proof.
  split.
  - apply (get_config_key_absent svc_two
             {[ "svc" := [mkEntry "timeout" "30"; mkEntry "retries" "3"] ]}
             "svc" "host" [mkEntry "timeout" "30"; mkEntry "retries" "3"]
             eq_refl eq_refl). compute_done.
  - apply (get_config_key_absent svc_empty {[ "svc" := [] ]} "svc" "host" []
             eq_refl eq_refl). compute_done.
Defined.

(** X3. [get_config] for a key that two or more entries of the project
    carry answers with the series of all their values, in the order of the
    rows, not with one value. *)
Theorem get_config_repeated_key
    (w : World) (data : FileData) (P K : string) (rows : list Entry)
    (Hfile : file w = Some data) (Hproject : data !! P = Some rows)
    (Hrepeated : (2 ≤ length (filter (λ e, key e = K) rows))%nat) :
  get_config (ConfigKey.mk P K) w
  = (inr (ConfigResponse.mk P K
            (PySeries (value <$> filter (λ e, key e = K) rows))), w).
Proof.
  assert (Hrows : rows ≠ []).
  { intros ->. simpl in Hrepeated. lia. }
  assert (HK : K ∈ key <$> rows).
  { destruct (filter (λ e, key e = K) rows) as [|e l] eqn:E;
      [simpl in Hrepeated; lia|].
    assert (He : e ∈ filter (λ e, key e = K) rows) by (rewrite E; left).
    apply list_elem_of_filter in He as [<- He]. by apply list_elem_of_fmap_2. }
  unfold get_config. run_handler Hfile Hproject.
  rewrite DataFrame_of_records_nonempty by done. simpl.
  rewrite bool_decide_true by done.
  destruct (filter (λ e, key e = K) rows) as [|e1 [|e2 l]];
    simpl in Hrepeated; [lia..|done].
Qed.

Lemma get_config_repeated_key_witness :
  get_config (ConfigKey.mk "svc" "timeout") svc_repeated
  = (inr (ConfigResponse.mk "svc" "timeout" (PySeries ["30"; "60"])),
     svc_repeated).
Proof.
  apply (get_config_repeated_key svc_repeated
           {[ "svc" := [mkEntry "timeout" "30"; mkEntry "retries" "3";
                        mkEntry "timeout" "60"] ]}
           "svc" "timeout"
           [mkEntry "timeout" "30"; mkEntry "retries" "3"; mkEntry "timeout" "60"]
           eq_refl eq_refl).
  vm_compute. lia.
Defined.

(** X4. A project name that the file does not hold: the five handlers
    answer 404 and write nothing. *)
Theorem api_unknown_project
    (w : World) (data : FileData) (P : string)
    (Hfile : file w = Some data) (Hunknown : data !! P = None) :
  (∀ K, get_config (ConfigKey.mk P K) w
        = (inl (HTTPException 404 ("项目 '" +:+ P +:+ "' 不存在")), w))
  ∧ (∀ K V, set_config (ConfigKey.mk P K) (ConfigValue.mk V) w
            = (inl (HTTPException 404 ("项目 '" +:+ P +:+ "' 不存在")), w))
  ∧ (∀ K, delete_config (ConfigKey.mk P K) w
          = (inl (HTTPException 404 ("项目 '" +:+ P +:+ "' 不存在")), w))
  ∧ (∀ updates, batch_set_config (ConfigBatchUpdate.mk P updates) w
                = (inl (HTTPException 404 ("项目 '" +:+ P +:+ "' 不存在")), w))
  ∧ (∀ keys, batch_remove_config (ConfigBatchDelete.mk P keys) w
             = (inl (HTTPException 404 "项目不存在"), w)).
Proof.
  split_and!; intros.
  - unfold get_config. by run_handler Hfile Hunknown.
  - unfold set_config. by run_handler Hfile Hunknown.
  - unfold delete_config. by run_handler Hfile Hunknown.
  - unfold batch_set_config. by run_handler Hfile Hunknown.
  - unfold batch_remove_config. by run_handler Hfile Hunknown.
Qed.

Lemma api_unknown_project_witness :
  get_config (ConfigKey.mk "web" "timeout") svc_two
    = (inl (HTTPException 404 "项目 'web' 不存在"), svc_two)
  ∧ batch_remove_config (ConfigBatchDelete.mk "web" ["timeout"]) svc_two
    = (inl (HTTPException 404 "项目不存在"), svc_two).
Proof.
  destruct (api_unknown_project svc_two
              {[ "svc" := [mkEntry "timeout" "30"; mkEntry "retries" "3"] ]}
              "web" eq_refl eq_refl) as (Hget & _ & _ & _ & Hremove).
  split; [apply Hget | apply Hremove].
Defined.

(** X5. While the data file does not exist, the five handlers raise
    [FileNotFoundError] and create no file; a new session, on the contrary,
    starts with no project. *)
Theorem api_without_file (w : World) (Hfile : file w = None) :
  (∀ ck, get_config ck w = (inl FileNotFoundError, w))
  ∧ (∀ ck cv, set_config ck cv w = (inl FileNotFoundError, w))
  ∧ (∀ ck, delete_config ck w = (inl FileNotFoundError, w))
  ∧ (∀ bu, batch_set_config bu w = (inl FileNotFoundError, w))
  ∧ (∀ bd, batch_remove_config bd w = (inl FileNotFoundError, w))
  ∧ session_projects (init_session w).2 = ∅.
Proof.
  split_and!; intros.
  - unfold get_config, mbind, M_bind, load_projects. by rewrite Hfile.
  - unfold set_config, mbind, M_bind, load_projects. by rewrite Hfile.
  - unfold delete_config, mbind, M_bind, load_projects. by rewrite Hfile.
  - unfold batch_set_config, mbind, M_bind, load_projects. by rewrite Hfile.
  - unfold batch_remove_config, mbind, M_bind, load_projects. by rewrite Hfile.
  - simpl. by rewrite Hfile.
Qed.

Lemma api_without_file_witness :
  set_config (ConfigKey.mk "svc" "timeout") (ConfigValue.mk "30") no_file
    = (inl FileNotFoundError, no_file)
  ∧ session_projects (init_session no_file).2 = ∅.
Proof.
  destruct (api_without_file no_file eq_refl) as (_ & Hset & _ & _ & _ & Hinit).
  split; [apply Hset | apply Hinit].
Defined.

(** ** API handlers: how calls compose *)

Section compose.
Implicit Types (d : pydict) (rows : list Entry) (k v : string).

Lemma items_of_rows_of_items d : items_of_rows (rows_of_items d) = d.
Proof.
  unfold rows_of_items, items_of_rows.
  induction d as [|[k v] d IH]; csimpl; [done|]. by rewrite IH.
Qed.

Lemma to_dict_rows_of_items d : NoDup d.*1 → to_dict (rows_of_items d) = d.
Proof.
  intros Hd. rewrite to_dict_unique by by rewrite rows_of_items_keys.
  apply items_of_rows_of_items.
Qed.

Lemma rows_of_items_nil d : rows_of_items d = [] → d = [].
Proof. unfold rows_of_items. apply fmap_nil_inv. Qed.

Lemma dict_setitem_nonempty d k v : dict_setitem d k v ≠ [].
Proof. destruct d as [|[k' v'] d]; simpl; [done|]. by case_decide. Qed.

Lemma dict_setitem_twice d k v1 v2 :
  dict_setitem (dict_setitem d k v1) k v2 = dict_setitem d k v2.
Proof.
  induction d as [|[k' v'] d IH]; simpl.
  - by rewrite decide_True.
  - case_decide; simpl.
    + by rewrite decide_True.
    + rewrite decide_False by done. by rewrite IH.
Qed.

Lemma dict_delitem_setitem_fresh d k v :
  k ∉ d.*1 → dict_delitem (dict_setitem d k v) k = d.
Proof.
  induction d as [|[k' v'] d IH]; csimpl.
  - intros _. by rewrite decide_True.
  - intros [? ?]%not_elem_of_cons. rewrite decide_False by done. csimpl.
    rewrite decide_False by done. by rewrite IH.
Qed.

(** The file after an API mutation followed by further [set_config] calls. *)
Lemma set_each_from_dict (w : World) (data : FileData) (P : string) d
    (updates : pydict) :
  file w = Some (<[P := rows_of_items d]> data) → NoDup d.*1 → d ≠ [] →
  file (set_each P updates w)
  = Some (<[P := rows_of_items (apply_updates d updates)]> data).
Proof.
  revert w d. induction updates as [|[k v] updates IH]; intros w d Hfile Hd Hne.
  - done.
  - change (set_each P ((k, v) :: updates) w)
      with (set_each P updates
              (set_config (ConfigKey.mk P k) (ConfigValue.mk v) w).2).
    change (apply_updates d ((k, v) :: updates))
      with (apply_updates (dict_setitem d k v) updates).
    apply IH; [|by apply dict_setitem_NoDup | apply dict_setitem_nonempty].
    rewrite (set_config_nonempty w _ P Hfile (rows_of_items d)).
    + simpl. by rewrite insert_insert_eq, to_dict_rows_of_items.
    + apply lookup_insert_eq.
    + intros Hnil. by apply Hne, rows_of_items_nil.
Qed.

(** The file after an API mutation followed by further [delete_config]
    calls. *)
Lemma delete_each_from_dict (w : World) (data : FileData) (P : string) d
    (keys : list string) :
  file w = Some (<[P := rows_of_items d]> data) → NoDup d.*1 →
  file (delete_each P keys w)
  = Some (<[P := rows_of_items (filter (λ kv, kv.1 ∉ keys) d)]> data).
Proof.
  revert w d. induction keys as [|k keys IH]; intros w d Hfile Hd.
  - simpl. by rewrite filter_notin_nil.
  - change (delete_each P (k :: keys) w)
      with (delete_each P keys (delete_config (ConfigKey.mk P k) w).2).
    rewrite filter_notin_cons, <- dict_delitem_filter by done.
    destruct d as [|kv d'] eqn:E.
    + rewrite (delete_config_empty w _ P Hfile); [|apply lookup_insert_eq].
      simpl. by apply (IH w []).
    + rewrite <- E in *.
      apply IH; [|by apply dict_delitem_NoDup].
      rewrite (delete_config_nonempty w _ P Hfile (rows_of_items d)).
      * simpl. by rewrite insert_insert_eq, to_dict_rows_of_items.
      * apply lookup_insert_eq.
      * rewrite E. done.
Qed.
End compose.

(** X6. On a project with entries, two [set_config] calls for the same key
    leave the file that the second call alone leaves: the last value wins
    and the place of the key does not depend on the first call. *)
Theorem set_config_last_write_wins
    (w : World) (data : FileData) (P K V1 V2 : string) (rows : list Entry)
    (Hfile : file w = Some data) (Hproject : data !! P = Some rows)
    (Hrows : rows ≠ []) :
  file (set_each P [(K, V1); (K, V2)] w)
  = file (set_config (ConfigKey.mk P K) (ConfigValue.mk V2) w).2.
Proof.
  change (set_each P [(K, V1); (K, V2)] w)
    with (set_each P [(K, V2)]
            (set_config (ConfigKey.mk P K) (ConfigValue.mk V1) w).2).
  rewrite !(set_config_nonempty w data P Hfile rows) by done.
  erewrite set_each_from_dict;
    [|done | apply dict_setitem_NoDup, to_dict_NoDup | apply dict_setitem_nonempty].
  simpl. by rewrite dict_setitem_twice.
Qed.

Lemma set_config_last_write_wins_witness :
  file (set_each "svc" [("host", "a"); ("host", "b")] svc_two)
  = file (set_config (ConfigKey.mk "svc" "host") (ConfigValue.mk "b") svc_two).2.
Proof.
  apply (set_config_last_write_wins svc_two
           {[ "svc" := [mkEntry "timeout" "30"; mkEntry "retries" "3"] ]}
           "svc" "host" "a" "b" [mkEntry "timeout" "30"; mkEntry "retries" "3"]);
    [reflexivity | reflexivity | discriminate].
Defined.

(** X7. On a project with entries and one entry per key, [set_config] for a
    key the project does not hold followed by [delete_config] for that key
    gives back the value that was set and leaves the file as it was before
    the two calls. *)
Theorem set_then_delete_restores
    (w : World) (data : FileData) (P K V : string) (rows : list Entry)
    (Hfile : file w = Some data) (Hproject : data !! P = Some rows)
    (Hrows : rows ≠ []) (Hunique : unique_keys rows)
    (Hfresh : K ∉ key <$> rows) :
  let after_set := (set_config (ConfigKey.mk P K) (ConfigValue.mk V) w).2 in
  let after := delete_config (ConfigKey.mk P K) after_set in
  after.1 = inr (ConfigResponse.mk P K (PyStr V))
  ∧ file after.2 = file w.
Proof.
  pose proof (to_dict_NoDup rows) as Hd.
  assert (HK : K ∉ (to_dict rows).*1) by by rewrite to_dict_keys.
  set (d1 := dict_setitem (to_dict rows) K V).
  set (w1 := write_file w (<[P := rows_of_items d1]> data)).
  assert (Hdelete :
    delete_config (ConfigKey.mk P K) w1
    = (inr (ConfigResponse.mk P K (PyStr V)),
       write_file w1 (<[P := rows]> data))).
  { rewrite (delete_config_nonempty w1 (<[P := rows_of_items d1]> data) P
               eq_refl (rows_of_items d1)).
    - rewrite to_dict_rows_of_items by by apply dict_setitem_NoDup.
      unfold d1. rewrite dict_get_setitem, decide_True by done.
      rewrite dict_delitem_setitem_fresh by done.
      rewrite insert_insert_eq. fold (collapse rows).
      by rewrite collapse_unique.
    - apply lookup_insert_eq.
    - intros Hnil. by apply rows_of_items_nil, dict_setitem_nonempty in Hnil. }
  cbv zeta. rewrite (set_config_nonempty w data P Hfile rows) by done.
  change (write_file w _) with w1. unfold snd at 1 3. rewrite Hdelete. simpl.
  split; [done|]. by rewrite insert_id.
Qed.

Lemma set_then_delete_restores_witness :
  let after_set :=
    (set_config (ConfigKey.mk "svc" "host") (ConfigValue.mk "h") svc_two).2 in
  let after := delete_config (ConfigKey.mk "svc" "host") after_set in
  after.1 = inr (ConfigResponse.mk "svc" "host" (PyStr "h"))
  ∧ file after.2 = file svc_two.
Proof.
  apply (set_then_delete_restores svc_two
           {[ "svc" := [mkEntry "timeout" "30"; mkEntry "retries" "3"] ]}
           "svc" "host" "h" [mkEntry "timeout" "30"; mkEntry "retries" "3"]);
    [reflexivity | reflexivity | discriminate | compute_done | compute_done].
Defined.

(** X8. On a project with entries, [delete_config] answers with the value of
    the last entry that carries the key, or with no value when no entry
    carries it, and saves in both cases. *)
Theorem delete_config_returns_last_value
    (w : World) (data : FileData) (P K : string) (rows : list Entry)
    (Hfile : file w = Some data) (Hproject : data !! P = Some rows)
    (Hrows : rows ≠ []) :
  let after := delete_config (ConfigKey.mk P K) w in
  after.1 = inr (ConfigResponse.mk P K (of_option (last_value rows K)))
  ∧ (K ∉ key <$> rows → last_value rows K = None)
  ∧ saves after.2 = S (saves w).
Proof.
  simpl. rewrite (delete_config_nonempty w data P Hfile rows) by done.
  simpl. rewrite dict_get_to_dict. split_and!; [done| |done].
  intros HK. rewrite <- dict_get_to_dict. apply dict_get_None.
  by rewrite to_dict_keys.
Qed.

Lemma delete_config_returns_last_value_witness :
  (delete_config (ConfigKey.mk "svc" "timeout") svc_repeated).1
    = inr (ConfigResponse.mk "svc" "timeout" (PyStr "60"))
  ∧ (delete_config (ConfigKey.mk "svc" "host") svc_repeated).1
    = inr (ConfigResponse.mk "svc" "host" PyNone).
Proof.
  split.
  - apply (delete_config_returns_last_value svc_repeated
             {[ "svc" := [mkEntry "timeout" "30"; mkEntry "retries" "3";
                          mkEntry "timeout" "60"] ]}
             "svc" "timeout"
             [mkEntry "timeout" "30"; mkEntry "retries" "3"; mkEntry "timeout" "60"]);
      [reflexivity | reflexivity | discriminate].
  - apply (delete_config_returns_last_value svc_repeated
             {[ "svc" := [mkEntry "timeout" "30"; mkEntry "retries" "3";
                          mkEntry "timeout" "60"] ]}
             "svc" "host"
             [mkEntry "timeout" "30"; mkEntry "retries" "3"; mkEntry "timeout" "60"]);
      [reflexivity | reflexivity | discriminate].
Defined.

(** X9. On a project with entries, [batch_set_config] leaves the file that
    one [set_config] per pair, in the order of the mapping, leaves (for an
    empty mapping: when the project holds one entry per key). *)
Theorem batch_set_as_set_each
    (w : World) (data : FileData) (P : string) (rows : list Entry)
    (updates : pydict)
    (Hfile : file w = Some data) (Hproject : data !! P = Some rows)
    (Hrows : rows ≠ []) (Hsome : updates ≠ [] ∨ unique_keys rows) :
  file (batch_set_config (ConfigBatchUpdate.mk P updates) w).2
  = file (set_each P updates w).
Proof.
  rewrite (batch_set_config_nonempty w data P Hfile rows) by done.
  destruct updates as [|[k v] updates].
  - destruct Hsome as [?|Hunique]; [done|]. simpl.
    fold (collapse rows). rewrite collapse_unique by done.
    by rewrite insert_id.
  - change (set_each P ((k, v) :: updates) w)
      with (set_each P updates
              (set_config (ConfigKey.mk P k) (ConfigValue.mk v) w).2).
    change (apply_updates (to_dict rows) ((k, v) :: updates))
      with (apply_updates (dict_setitem (to_dict rows) k v) updates).
    rewrite (set_config_nonempty w data P Hfile rows) by done.
    symmetry. apply set_each_from_dict;
      [done | apply dict_setitem_NoDup, to_dict_NoDup | apply dict_setitem_nonempty].
Qed.

Lemma batch_set_as_set_each_witness :
  file (batch_set_config
          (ConfigBatchUpdate.mk "svc" [("retries", "5"); ("host", "h")])
          svc_repeated).2
  = file (set_each "svc" [("retries", "5"); ("host", "h")] svc_repeated).
Proof.
  apply (batch_set_as_set_each svc_repeated
           {[ "svc" := [mkEntry "timeout" "30"; mkEntry "retries" "3";
                        mkEntry "timeout" "60"] ]}
           "svc"
           [mkEntry "timeout" "30"; mkEntry "retries" "3"; mkEntry "timeout" "60"]);
    [reflexivity | reflexivity | discriminate | left; discriminate].
Defined.

(** X10. On a project with entries, [batch_remove_config] leaves the file
    that one [delete_config] per key, in the order of the list, leaves, even
    when the project runs empty on the way and the later calls answer 404
    (for an empty list: when the project holds one entry per key). *)
Theorem batch_remove_as_delete_each
    (w : World) (data : FileData) (P : string) (rows : list Entry)
    (keys : list string)
    (Hfile : file w = Some data) (Hproject : data !! P = Some rows)
    (Hrows : rows ≠ []) (Hsome : keys ≠ [] ∨ unique_keys rows) :
  file (batch_remove_config (ConfigBatchDelete.mk P keys) w).2
  = file (delete_each P keys w).
Proof.
  rewrite (batch_remove_config_nonempty w data P Hfile rows) by done.
  pose proof (to_dict_NoDup rows) as Hd.
  rewrite remove_keys_config by done.
  destruct keys as [|k keys].
  - destruct Hsome as [?|Hunique]; [done|]. simpl.
    rewrite filter_notin_nil. fold (collapse rows).
    rewrite collapse_unique by done. by rewrite insert_id.
  - change (delete_each P (k :: keys) w)
      with (delete_each P keys (delete_config (ConfigKey.mk P k) w).2).
    rewrite (delete_config_nonempty w data P Hfile rows) by done.
    rewrite filter_notin_cons, <- dict_delitem_filter by done.
    symmetry. apply delete_each_from_dict; [done | by apply dict_delitem_NoDup].
Qed.

Lemma batch_remove_as_delete_each_witness :
  file (batch_remove_config
          (ConfigBatchDelete.mk "svc" ["timeout"; "retries"; "host"]) svc_two).2
  = file (delete_each "svc" ["timeout"; "retries"; "host"] svc_two).
Proof.
  apply (batch_remove_as_delete_each svc_two
           {[ "svc" := [mkEntry "timeout" "30"; mkEntry "retries" "3"] ]}
           "svc" [mkEntry "timeout" "30"; mkEntry "retries" "3"]);
    [reflexivity | reflexivity | discriminate | left; discriminate].
Defined.

(** ** Persistence *)

(** X11. Loading the file and saving what was loaded writes the content the
    file had. *)
Theorem load_then_save (w : World) (data : FileData) (Hfile : file w = Some data) :
  ∃ projects,
    load_projects w = (inr projects, w)
    ∧ file (save_projects projects w).2 = Some data.
Proof.
  exists (DataFrame_of_records <$> data). split.
  - unfold load_projects. by rewrite Hfile.
  - simpl. by rewrite records_load.
Qed.

Lemma load_then_save_witness :
  ∃ projects,
    load_projects svc_empty = (inr projects, svc_empty)
    ∧ file (save_projects projects svc_empty).2 = Some {[ "svc" := [] ]}.
Proof. exact (load_then_save svc_empty {[ "svc" := [] ]} eq_refl). Defined.

(** ** Streamlit handlers on the selected project *)

Section selected.
Context (w : World) (cur : string) (df : DataFrame).
Context (Hcur : current_project w = Some cur) (Hname : cur ≠ "").
Context (Hdf : session_projects w !! cur = Some df).

Ltac ui_selected :=
  unfold mbind at 1; unfold M_bind at 1;
  rewrite (get_current_project_selected w cur) by done;
  unfold try_except, mbind, M_bind, session_getitem; rewrite Hdf.

Lemma add_config_form_eq (k v : string) :
  add_config_form k v w =
    if bool_decide (k ≠ "") && bool_decide (v ≠ "") then
      match df with
      | NoColumns => (inl (KeyError "key"), w)
      | Frame rows =>
          if bool_decide (k ∈ key <$> rows) then (inr KeyAlreadyExists, w)
          else (inr Rerun, stored w cur (Frame (rows ++ [mkEntry k v])))
      end
    else (inr Incomplete, w).
Proof.
  unfold add_config_form. ui_selected.
  destruct (bool_decide _ && bool_decide _); [|done].
  destruct df as [|rows]; [done|]. simpl. by case_bool_decide.
Qed.

Lemma edit_config_form_eq (selected_key new_value : string) :
  edit_config_form selected_key new_value w =
    match df with
    | Frame rows =>
        if bool_decide (selected_key ∈ key <$> rows) then
          (inr Rerun,
           stored w cur
             (Frame ((λ e, if decide (key e = selected_key)
                           then mkEntry (key e) new_value else e) <$> rows)))
        else (inr NotShown, w)
    | NoColumns => (inr NotShown, w)
    end.
Proof.
  unfold edit_config_form. ui_selected.
  destruct df as [|rows]; [done|]. simpl.
  case_bool_decide as Hlen; simpl.
  - by case_bool_decide.
  - destruct rows; [done|]. simpl in Hlen. lia.
Qed.

Lemma delete_button_eq (selected_key : string) :
  delete_button selected_key w =
    match df with
    | Frame rows =>
        if bool_decide (selected_key ∈ key <$> rows) then
          (inr Rerun,
           stored w cur (Frame (filter (λ e, key e ≠ selected_key) rows)))
        else (inr NotShown, w)
    | NoColumns => (inr NotShown, w)
    end.
Proof.
  unfold delete_button. ui_selected.
  destruct df as [|rows]; [done|]. simpl.
  case_bool_decide as Hlen; simpl.
  - by case_bool_decide.
  - destruct rows; [done|]. simpl in Hlen. lia.
Qed.

Lemma batch_delete_button_eq (batch_data : list Entry) :
  batch_delete_button batch_data w =
    match df with
    | Frame rows =>
        (inr Rerun,
         stored w cur (Frame (filter (λ e, key e ∉ key <$> batch_data) rows)))
    | NoColumns => (inr (FileProcessingError (KeyError "key")), w)
    end.
Proof.
  unfold batch_delete_button. ui_selected. by destruct df as [|rows].
Qed.

(** [get_config] reads what a handler of the page has just stored. *)
Lemma get_config_after_stored (df' : DataFrame) (K v : string) :
  unique_keys (records df') → mkEntry K v ∈ records df' →
  get_config (ConfigKey.mk cur K) (stored w cur df')
  = (inr (ConfigResponse.mk cur K (PyStr v)), stored w cur df').
Proof.
  intros Hu Hin.
  apply (get_config_present (stored w cur df')
           (records <$> <[cur := df']> (session_projects w)) cur eq_refl
           (records df')); [|..|done|done].
  - by rewrite lookup_fmap, lookup_insert_eq.
  - intros Hnil. rewrite Hnil in Hin. by apply elem_of_nil in Hin.
Qed.

Lemma get_config_after_stored_absent (rows' : list Entry) (K : string) :
  K ∉ key <$> rows' →
  get_config (ConfigKey.mk cur K) (stored w cur (Frame rows'))
  = (inl (match rows' with
          | [] => KeyError "key"
          | _ => key_not_found K
          end), stored w cur (Frame rows')).
Proof.
  intros HK.
  assert (Hlookup :
    (records <$> <[cur := Frame rows']> (session_projects w)) !! cur
    = Some rows') by by rewrite lookup_fmap, lookup_insert_eq.
  destruct rows' as [|e rows''].
  - by apply (get_config_empty (stored w cur (Frame [])) _ cur eq_refl).
  - by apply (get_config_missing (stored w cur (Frame (e :: rows''))) _ cur
                eq_refl (e :: rows'')).
Qed.
End selected.

(** ** Operations on entries keep the projects and the selection *)

Lemma same_selection_stored (w : World) (cur : string) (df df' : DataFrame) :
  session_projects w !! cur = Some df → same_selection w (stored w cur df').
Proof.
  intros Hdf. split; [done|]. simpl. by apply dom_insert_lookup_L.
Qed.

Lemma same_selection_write_file (w : World) (data : FileData) :
  same_selection w (write_file w data).
Proof. done. Qed.

Lemma same_selection_refl (w : World) : same_selection w w.
Proof. done. Qed.

Section selection.
Context (w : World).

Lemma api_same_selection :
  (∀ ck cv, same_selection w (set_config ck cv w).2)
  ∧ (∀ ck, same_selection w (delete_config ck w).2)
  ∧ (∀ bu, same_selection w (batch_set_config bu w).2)
  ∧ (∀ bd, same_selection w (batch_remove_config bd w).2).
Proof.
  split_and!; intros.
  - unfold set_config. api_cases w. apply same_selection_write_file.
  - unfold delete_config. api_cases w. apply same_selection_write_file.
  - unfold batch_set_config. api_cases w. apply same_selection_write_file.
  - unfold batch_remove_config. api_cases w.
    destruct (remove_keys _ _) as [config n]. apply same_selection_write_file.
Qed.

Lemma ui_same_selection :
  (∀ k v, same_selection w (add_config_form k v w).2)
  ∧ (∀ k v, same_selection w (edit_config_form k v w).2)
  ∧ (∀ k, same_selection w (delete_button k w).2)
  ∧ (∀ b, same_selection w (batch_add_button b w).2)
  ∧ (∀ b, same_selection w (batch_delete_button b w).2).
Proof.
  split_and!; intros.
  - unfold add_config_form. ui_cases w name df Hdf.
    destruct (bool_decide _ && bool_decide _); simpl; [|done].
    destruct df as [|rows]; simpl; [done|].
    case_bool_decide; simpl; [done|].
    by apply (same_selection_stored w name (Frame rows) (Frame _)).
  - unfold edit_config_form. ui_cases w name df Hdf.
    case_bool_decide; simpl; [|done].
    destruct df as [|rows]; simpl; [done|].
    case_bool_decide; simpl; [|done].
    by apply (same_selection_stored w name (Frame rows) (Frame _)).
  - unfold delete_button. ui_cases w name df Hdf.
    case_bool_decide; simpl; [|done].
    destruct df as [|rows]; simpl; [done|].
    case_bool_decide; simpl; [|done].
    by apply (same_selection_stored w name (Frame rows) (Frame _)).
  - unfold batch_add_button. ui_cases w name df Hdf.
    rewrite existing_keys_records. simpl.
    case_bool_decide; simpl; [done|].
    by apply (same_selection_stored w name df (concat df b)).
  - unfold batch_delete_button. ui_cases w name df Hdf.
    destruct df as [|rows]; simpl; [done|].
    by apply (same_selection_stored w name (Frame rows) (Frame _)).
Qed.
End selection.

(** X12. No operation on entries, from the page or from the API, whatever
    it answers, adds a project to the session, removes one from it or moves
    the selection. *)
Theorem step_same_selection (w : World) (op : Op) :
  same_selection w (step w op).
Proof.
  destruct (api_same_selection w) as (Hset & Hdelete & Hbset & Hbdelete).
  destruct (ui_same_selection w) as (Hadd & Hedit & Hdel & Hbadd & Hbdel).
  destruct op; simpl; auto.
Qed.

(** ** The page and the API on the same project *)

Section page_then_api.
Context (w : World) (cur : string) (rows : list Entry).
Context (Hcur : current_project w = Some cur) (Hname : cur ≠ "").
Context (Hdf : session_projects w !! cur = Some (Frame rows)).
Context (Hunique : unique_keys rows).

Lemma edited_member (selected_key new_value : string) :
  selected_key ∈ key <$> rows →
  mkEntry selected_key new_value
  ∈ (λ e, if decide (key e = selected_key)
          then mkEntry (key e) new_value else e) <$> rows.
Proof.
  intros (e & -> & He)%list_elem_of_fmap.
  apply list_elem_of_fmap. exists e. by rewrite decide_True.
Qed.

Lemma edited_other (selected_key new_value : string) (e : Entry) :
  key e ≠ selected_key → e ∈ rows →
  e ∈ (λ e, if decide (key e = selected_key)
            then mkEntry (key e) new_value else e) <$> rows.
Proof.
  intros Hne He. apply list_elem_of_fmap. exists e. by rewrite decide_False.
Qed.
End page_then_api.



(** X14. The edit form on a selected project that holds one entry per key,
    for a key of the project: the keys and their order stay, [get_config]
    then reads the new value for that key and the old value for every other
    key. *)
Theorem edit_config_form_then_get
    (w : World) (cur : string) (rows : list Entry)
    (selected_key new_value : string)
    (Hcur : current_project w = Some cur) (Hname : cur ≠ "")
    (Hdf : session_projects w !! cur = Some (Frame rows))
    (Hunique : unique_keys rows) (Hselected : selected_key ∈ key <$> rows) :
  ∃ w' rows',
    edit_config_form selected_key new_value w = (inr Rerun, w')
    ∧ session_projects w' !! cur = Some (Frame rows')
    ∧ key <$> rows' = key <$> rows
    ∧ get_config (ConfigKey.mk cur selected_key) w'
      = (inr (ConfigResponse.mk cur selected_key (PyStr new_value)), w')
    ∧ ∀ k0 v0, k0 ≠ selected_key → mkEntry k0 v0 ∈ rows →
        get_config (ConfigKey.mk cur k0) w'
        = (inr (ConfigResponse.mk cur k0 (PyStr v0)), w').
Proof.
  rewrite (edit_config_form_eq w cur (Frame rows)) by done.
  rewrite bool_decide_true by done.
  pose proof (unique_keys_edit rows selected_key new_value Hunique) as Hu'.
  do 2 eexists. split_and!; [done| | | |].
  - simpl. apply lookup_insert_eq.
  - rewrite <- list_fmap_compose. apply list_fmap_ext.
    intros i e _. simpl. by case_decide.
  - apply get_config_after_stored; [done|]. by apply edited_member.
  - intros k0 v0 Hne Hin. apply get_config_after_stored; [done|].
    by apply (edited_other rows selected_key new_value (mkEntry k0 v0)).
Qed.

Lemma edit_config_form_then_get_witness :
  ∃ w' rows',
    edit_config_form "timeout" "60" ui_two = (inr Rerun, w')
    ∧ session_projects w' !! "svc" = Some (Frame rows')
    ∧ key <$> rows' = key <$> [mkEntry "timeout" "30"; mkEntry "retries" "3"]
    ∧ get_config (ConfigKey.mk "svc" "timeout") w'
      = (inr (ConfigResponse.mk "svc" "timeout" (PyStr "60")), w')
    ∧ ∀ k0 v0, k0 ≠ "timeout" →
        mkEntry k0 v0 ∈ [mkEntry "timeout" "30"; mkEntry "retries" "3"] →
        get_config (ConfigKey.mk "svc" k0) w'
        = (inr (ConfigResponse.mk "svc" k0 (PyStr v0)), w').
Proof.
  apply (edit_config_form_then_get ui_two "svc"
           [mkEntry "timeout" "30"; mkEntry "retries" "3"] "timeout" "60");
    [reflexivity | discriminate | reflexivity | compute_done | compute_done].
Defined.

(** X15. The delete button on a selected project that holds one entry per
    key, for a key of the project: [get_config] for that key then fails
    (404, or the [KeyError] of the missing column when it was the only
    entry), and still reads the value of every other key. *)
Theorem delete_button_then_get
    (w : World) (cur : string) (rows : list Entry) (selected_key : string)
    (Hcur : current_project w = Some cur) (Hname : cur ≠ "")
    (Hdf : session_projects w !! cur = Some (Frame rows))
    (Hunique : unique_keys rows) (Hselected : selected_key ∈ key <$> rows) :
  ∃ w' rows',
    delete_button selected_key w = (inr Rerun, w')
    ∧ session_projects w' !! cur = Some (Frame rows')
    ∧ get_config (ConfigKey.mk cur selected_key) w'
      = (inl (match rows' with
              | [] => KeyError "key"
              | _ => HTTPException 404 ("配置项 '" +:+ selected_key +:+ "' 不存在")
              end), w')
    ∧ ∀ k0 v0, k0 ≠ selected_key → mkEntry k0 v0 ∈ rows →
        get_config (ConfigKey.mk cur k0) w'
        = (inr (ConfigResponse.mk cur k0 (PyStr v0)), w').
Proof.
  rewrite (delete_button_eq w cur (Frame rows)) by done.
  rewrite bool_decide_true by done.
  do 2 eexists. split_and!; [done| | |].
  - simpl. apply lookup_insert_eq.
  - apply get_config_after_stored_absent.
    intros (e & -> & He)%list_elem_of_fmap.
    by apply list_elem_of_filter in He as [Hne _].
  - intros k0 v0 Hne Hin. apply get_config_after_stored.
    + by apply unique_keys_filter.
    + simpl. by apply list_elem_of_filter.
Qed.

Lemma delete_button_then_get_witness :
  ∃ w' rows',
    delete_button "timeout" ui_svc = (inr Rerun, w')
    ∧ session_projects w' !! "svc" = Some (Frame rows')
    ∧ get_config (ConfigKey.mk "svc" "timeout") w'
      = (inl (match rows' with
              | [] => KeyError "key"
              | _ => HTTPException 404 "配置项 'timeout' 不存在"
              end), w')
    ∧ ∀ k0 v0, k0 ≠ "timeout" → mkEntry k0 v0 ∈ [mkEntry "timeout" "30"] →
        get_config (ConfigKey.mk "svc" k0) w'
        = (inr (ConfigResponse.mk "svc" k0 (PyStr v0)), w').
Proof.
  apply (delete_button_then_get ui_svc "svc" [mkEntry "timeout" "30"] "timeout");
    [reflexivity | discriminate | reflexivity | compute_done | compute_done].
Defined.

(** X16. The batch delete button on the selected project: on a frame with
    its columns it never fails, keeps, in their order, exactly the entries
    whose key is not in the file, and saves the session store; on a frame
    without columns (a project loaded with no entry) it reports the
    [KeyError] and changes nothing. *)
Theorem batch_delete_button_outcomes
    (w : World) (cur : string) (df : DataFrame) (batch_data : list Entry)
    (Hcur : current_project w = Some cur) (Hname : cur ≠ "")
    (Hdf : session_projects w !! cur = Some df) :
  match df with
  | NoColumns =>
      batch_delete_button batch_data w
      = (inr (FileProcessingError (KeyError "key")), w)
  | Frame rows =>
      ∃ w' rows',
        batch_delete_button batch_data w = (inr Rerun, w')
        ∧ session_projects w' !! cur = Some (Frame rows')
        ∧ file w' = Some (records <$> session_projects w')
        ∧ rows' `sublist_of` rows
        ∧ ∀ e, e ∈ rows' ↔ e ∈ rows ∧ key e ∉ key <$> batch_data
  end.
Proof.
  rewrite (batch_delete_button_eq w cur df) by done.
  destruct df as [|rows]; [done|].
  do 2 eexists. split_and!; [done| |done| |].
  - simpl. apply lookup_insert_eq.
  - apply sublist_filter.
  - intros e. rewrite list_elem_of_filter. tauto.
Qed.

Lemma batch_delete_button_outcomes_witness :
  batch_delete_button [mkEntry "timeout" "1"] ui_loaded_empty
    = (inr (FileProcessingError (KeyError "key")), ui_loaded_empty)
  ∧ ∃ w' rows',
      batch_delete_button [mkEntry "timeout" "1"; mkEntry "host" "h"] ui_two
        = (inr Rerun, w')
      ∧ session_projects w' !! "svc" = Some (Frame rows')
      ∧ file w' = Some (records <$> session_projects w')
      ∧ rows' `sublist_of` [mkEntry "timeout" "30"; mkEntry "retries" "3"]
      ∧ ∀ e, e ∈ rows' ↔
          e ∈ [mkEntry "timeout" "30"; mkEntry "retries" "3"]
          ∧ key e ∉ key <$> [mkEntry "timeout" "1"; mkEntry "host" "h"].
Proof.
  split.
  - apply (batch_delete_button_outcomes ui_loaded_empty "svc" NoColumns
             [mkEntry "timeout" "1"]); [reflexivity | discriminate | reflexivity].
  - apply (batch_delete_button_outcomes ui_two "svc"
             (Frame [mkEntry "timeout" "30"; mkEntry "retries" "3"])
             [mkEntry "timeout" "1"; mkEntry "host" "h"]);
      [reflexivity | discriminate | reflexivity].
Defined.

(** ** The session store and the file *)

(** X17. A write from the page saves the session store as it is, not the
    file as it is: an entry that [set_config] has added to the file since
    the session read it is gone from the file after the next add from the
    page, and [get_config] answers 404 for it. *)
Theorem page_write_drops_api_write
    (w : World) (data : FileData) (cur K V k v : string) (rows : list Entry)
    (Hcur : current_project w = Some cur) (Hname : cur ≠ "")
    (Hdf : session_projects w !! cur = Some (Frame rows))
    (Hfile : file w = Some data) (Hproject : data !! cur = Some rows)
    (Hrows : rows ≠ []) (Hunique : unique_keys rows)
    (HK : K ∉ key <$> rows) (Hk : k ∉ key <$> rows) (HkK : k ≠ K)
    (Hkey : k ≠ "") (Hvalue : v ≠ "") :
  let w1 := (set_config (ConfigKey.mk cur K) (ConfigValue.mk V) w).2 in
  get_config (ConfigKey.mk cur K) w1
    = (inr (ConfigResponse.mk cur K (PyStr V)), w1)
  ∧ ∃ w2, add_config_form k v w1 = (inr Rerun, w2)
      ∧ file w2 = Some (records <$> session_projects w2)
      ∧ get_config (ConfigKey.mk cur K) w2
        = (inl (HTTPException 404 ("配置项 '" +:+ K +:+ "' 不存在")), w2).
Proof.
  cbv zeta. rewrite (set_config_nonempty w data cur Hfile rows) by done.
  set (w1 := write_file w _). unfold snd. split.
  - apply get_config_after_update.
    + apply dict_setitem_NoDup, to_dict_NoDup.
    + rewrite dict_get_setitem. by rewrite decide_True.
  - rewrite (add_config_form_eq w1 cur (Frame rows)) by done.
    rewrite !bool_decide_true by done. simpl.
    rewrite bool_decide_false by done.
    eexists. split_and!; [done..|].
    rewrite (get_config_after_stored_absent w1 cur (rows ++ [mkEntry k v]) K).
    + by destruct rows.
    + rewrite fmap_app. rewrite elem_of_app. intros [?|Hin]; [done|].
      apply list_elem_of_singleton in Hin. simpl in Hin. done.
Qed.

Lemma page_write_drops_api_write_witness :
  let w1 := (set_config (ConfigKey.mk "svc" "host") (ConfigValue.mk "h") ui_two).2 in
  get_config (ConfigKey.mk "svc" "host") w1
    = (inr (ConfigResponse.mk "svc" "host" (PyStr "h")), w1)
  ∧ ∃ w2, add_config_form "port" "80" w1 = (inr Rerun, w2)
      ∧ file w2 = Some (records <$> session_projects w2)
      ∧ get_config (ConfigKey.mk "svc" "host") w2
        = (inl (HTTPException 404 "配置项 'host' 不存在"), w2).
Proof.
  apply (page_write_drops_api_write ui_two
           {[ "svc" := [mkEntry "timeout" "30"; mkEntry "retries" "3"] ]}
           "svc" "host" "h" "port" "80"
           [mkEntry "timeout" "30"; mkEntry "retries" "3"]);
    [reflexivity | discriminate | reflexivity | reflexivity | reflexivity
    | discriminate | compute_done | compute_done | compute_done
    | discriminate | discriminate | discriminate].
Defined.



(** ** Creating and deleting projects *)

Lemma create_project_button_eq (w : World) (name : string) :
  create_project_button name w =
    if bool_decide (name ≠ "") then
      match session_projects w !! name with
      | Some _ => (inr ProjectExists, w)
      | None => (inr ProjectRerun, created w name)
      end
    else (inr NameMissing, w).
Proof.
  unfold create_project_button. case_bool_decide; [|done].
  unfold mbind, M_bind, get_session_projects.
  by destruct (session_projects w !! name).
Qed.

Lemma delete_project_button_eq
    (w : World) (project_names : list string) (confirm_project cur : string)
    (df : DataFrame) :
  current_project w = Some cur → cur ≠ "" →
  session_projects w !! cur = Some df →
  delete_project_button project_names confirm_project w =
    if bool_decide (confirm_project = cur)
    then (inr ProjectRerun, deleted w project_names cur)
    else (inr NameMismatch, w).
Proof.
  intros Hcur Hname Hdf. unfold delete_project_button.
  unfold mbind at 1. unfold M_bind at 1.
  rewrite (get_current_project_selected w cur) by done.
  case_bool_decide; [|done].
  unfold mbind, M_bind, session_delitem. by rewrite Hdf.
Qed.

(** The selection that a deletion leaves, when [project_names] lists the
    projects of the session. *)
Lemma deleted_selection (w : World) (project_names : list string) (cur : string) :
  (∀ name, name ∈ project_names ↔ is_Some (session_projects w !! name)) →
  match current_project (deleted w project_names cur) with
  | None => delete cur (session_projects w) = ∅
  | Some name =>
      name ≠ cur ∧ is_Some (delete cur (session_projects w) !! name)
  end.
Proof.
  intros Hnames. simpl. case_bool_decide as Hempty; [done|].
  destruct (filter _ project_names) as [|name l] eqn:E; simpl.
  - exfalso. apply Hempty. apply map_empty. intros name.
    destruct (delete cur (session_projects w) !! name) as [df|] eqn:El; [|done].
    exfalso. apply lookup_delete_Some in El as [Hne El].
    assert (Hin : name ∈ filter (λ name, name ≠ cur) project_names).
    { apply list_elem_of_filter. split; [done|]. apply Hnames. by eexists. }
    rewrite E in Hin. by apply elem_of_nil in Hin.
  - assert (Hin : name ∈ filter (λ name, name ≠ cur) project_names)
      by (rewrite E; left).
    apply list_elem_of_filter in Hin as [Hne Hin]. split; [done|].
    rewrite lookup_delete_ne by done. by apply Hnames.
Qed.

(** X19. The button that creates a project: an empty name and the name of
    a project of the session are refused and nothing changes; any other name
    gives a project without entries, leaves the other projects as they are,
    selects the new project and saves the session store. *)
Theorem create_project_button_outcomes (w : World) (name : string) :
  (name = "" → create_project_button name w = (inr NameMissing, w))
  ∧ (name ≠ "" → is_Some (session_projects w !! name) →
       create_project_button name w = (inr ProjectExists, w))
  ∧ (name ≠ "" → session_projects w !! name = None →
       ∃ w', create_project_button name w = (inr ProjectRerun, w')
         ∧ session_projects w' !! name = Some (Frame [])
         ∧ (∀ other, other ≠ name →
              session_projects w' !! other = session_projects w !! other)
         ∧ current_project w' = Some name
         ∧ file w' = Some (records <$> session_projects w')).
Proof.
  rewrite create_project_button_eq. split_and!.
  - intros ->. done.
  - intros Hname [df Hdf]. by rewrite bool_decide_true, Hdf.
  - intros Hname Hfresh. rewrite bool_decide_true, Hfresh by done.
    eexists. split_and!; [done| |simpl|done..].
    + simpl. apply lookup_insert_eq.
    + intros other Hne. by apply lookup_insert_ne.
Qed.

Lemma create_project_button_outcomes_witness :
  create_project_button "" ui_two = (inr NameMissing, ui_two)
  ∧ create_project_button "svc" ui_two = (inr ProjectExists, ui_two)
  ∧ ∃ w', create_project_button "web" ui_two = (inr ProjectRerun, w')
      ∧ session_projects w' !! "web" = Some (Frame [])
      ∧ (∀ other, other ≠ "web" →
           session_projects w' !! other = session_projects ui_two !! other)
      ∧ current_project w' = Some "web"
      ∧ file w' = Some (records <$> session_projects w').
Proof.
  split_and!.
  - by apply (create_project_button_outcomes ui_two "").
  - apply (create_project_button_outcomes ui_two "svc"); [discriminate|].
    by eexists.
  - apply (create_project_button_outcomes ui_two "web");
      [discriminate | reflexivity].
Defined.

(** X20. A project that has just been created is refused by the API: the
    four mutations answer 404 and [get_config] raises the [KeyError] of the
    missing column; none of them writes. *)
Theorem created_project_refused_by_api
    (w : World) (name : string)
    (Hname : name ≠ "") (Hfresh : session_projects w !! name = None) :
  let w1 := (create_project_button name w).2 in
  (∀ K V, set_config (ConfigKey.mk name K) (ConfigValue.mk V) w1
          = (inl (HTTPException 404 ("配置项 '" +:+ K +:+ "' 不存在")), w1))
  ∧ (∀ K, delete_config (ConfigKey.mk name K) w1
          = (inl (HTTPException 404 ("配置项 '" +:+ K +:+ "' 不存在")), w1))
  ∧ (∀ updates, batch_set_config (ConfigBatchUpdate.mk name updates) w1
                = (inl (HTTPException 404 "项目为空，无法进行批量更新"), w1))
  ∧ (∀ keys, batch_remove_config (ConfigBatchDelete.mk name keys) w1
             = (inl (HTTPException 404 "项目为空，无法进行批量删除"), w1))
  ∧ (∀ K, get_config (ConfigKey.mk name K) w1 = (inl (KeyError "key"), w1)).
Proof.
  cbv zeta. rewrite create_project_button_eq, bool_decide_true, Hfresh by done.
  unfold snd.
  assert (Hempty :
    (records <$> <[name := Frame []]> (session_projects w)) !! name = Some [])
    by by rewrite lookup_fmap, lookup_insert_eq.
  split_and!; intros.
  - by apply (set_config_empty (created w name) _ name eq_refl).
  - by apply (delete_config_empty (created w name) _ name eq_refl).
  - by apply (batch_set_config_empty (created w name) _ name eq_refl).
  - by apply (batch_remove_config_empty (created w name) _ name eq_refl).
  - by apply (get_config_empty (created w name) _ name eq_refl).
Qed.

Lemma created_project_refused_by_api_witness :
  let w1 := (create_project_button "web" ui_two).2 in
  set_config (ConfigKey.mk "web" "port") (ConfigValue.mk "80") w1
    = (inl (HTTPException 404 "配置项 'port' 不存在"), w1)
  ∧ get_config (ConfigKey.mk "web" "port") w1 = (inl (KeyError "key"), w1).
Proof.
  destruct (created_project_refused_by_api ui_two "web"
              ltac:(discriminate) eq_refl) as (Hset & _ & _ & _ & Hget).
  split; [apply Hset | apply Hget].
Defined.

(** X21. The first entry of a project. In the session that created the
    project the add form appends it and [get_config] reads it. In a session
    started afterwards, where the project is loaded without columns, the
    same form raises [KeyError] once the project is selected, and nothing
    changes. *)
Theorem first_entry_after_create_and_after_restart
    (w : World) (name k v : string)
    (Hname : name ≠ "") (Hfresh : session_projects w !! name = None)
    (Hk : k ≠ "") (Hv : v ≠ "") :
  let w1 := (create_project_button name w).2 in
  (∃ w2, add_config_form k v w1 = (inr Rerun, w2)
     ∧ get_config (ConfigKey.mk name k) w2
       = (inr (ConfigResponse.mk name k (PyStr v)), w2))
  ∧ let restarted := (set_current_project (Some name) (init_session w1).2).2 in
    add_config_form k v restarted = (inl (KeyError "key"), restarted).
Proof.
  cbv zeta. rewrite create_project_button_eq, bool_decide_true, Hfresh by done.
  unfold snd at 1 3. split.
  - rewrite (add_config_form_eq (created w name) name (Frame [])); [|done..| ].
    + rewrite !bool_decide_true by done. simpl.
      eexists. split; [done|].
      apply get_config_after_stored; [apply NoDup_singleton | left].
    + simpl. apply lookup_insert_eq.
  - rewrite (add_config_form_eq _ name NoColumns); [|done..|].
    + by rewrite !bool_decide_true by done.
    + simpl. rewrite lookup_fmap, lookup_fmap, lookup_insert_eq. done.
Qed.

Lemma first_entry_after_create_and_after_restart_witness :
  let w1 := (create_project_button "web" ui_two).2 in
  (∃ w2, add_config_form "port" "80" w1 = (inr Rerun, w2)
     ∧ get_config (ConfigKey.mk "web" "port") w2
       = (inr (ConfigResponse.mk "web" "port" (PyStr "80")), w2))
  ∧ let restarted := (set_current_project (Some "web") (init_session w1).2).2 in
    add_config_form "port" "80" restarted = (inl (KeyError "key"), restarted).
Proof.
  apply (first_entry_after_create_and_after_restart ui_two "web" "port" "80");
    [discriminate | reflexivity | discriminate | discriminate].
Defined.

(** X22. The button that deletes the selected project: a confirmation that
    is not the name of the selected project changes nothing; the name
    removes the project, and only it, from the session and from the file.
    When [project_names] lists the projects of the session, the selection
    then is a remaining project, or nothing when no project remains. *)
Theorem delete_project_button_outcomes
    (w : World) (project_names : list string) (confirm_project cur : string)
    (df : DataFrame)
    (Hcur : current_project w = Some cur) (Hname : cur ≠ "")
    (Hdf : session_projects w !! cur = Some df) :
  (confirm_project ≠ cur →
     delete_project_button project_names confirm_project w
     = (inr NameMismatch, w))
  ∧ (confirm_project = cur →
     ∃ w', delete_project_button project_names confirm_project w
           = (inr ProjectRerun, w')
       ∧ session_projects w' !! cur = None
       ∧ (∀ other, other ≠ cur →
            session_projects w' !! other = session_projects w !! other)
       ∧ file w' = Some (records <$> session_projects w')
       ∧ ((∀ name, name ∈ project_names ↔ is_Some (session_projects w !! name)) →
          match current_project w' with
          | None => session_projects w' = ∅
          | Some name => name ≠ cur ∧ is_Some (session_projects w' !! name)
          end)).
Proof.
  rewrite (delete_project_button_eq w project_names confirm_project cur df)
    by done.
  split; intros Hconfirm.
  - by rewrite bool_decide_false.
  - rewrite bool_decide_true by done.
    eexists. split_and!; [done| | |done|].
    + simpl. apply lookup_delete_eq.
    + intros other Hne. simpl. by apply lookup_delete_ne.
    + apply deleted_selection.
Qed.

Lemma delete_project_button_outcomes_witness :
  delete_project_button ["svc"; "web"] "web" ui_projects
    = (inr NameMismatch, ui_projects)
  ∧ ∃ w', delete_project_button ["svc"; "web"] "svc" ui_projects
          = (inr ProjectRerun, w')
      ∧ session_projects w' !! "svc" = None
      ∧ (∀ other, other ≠ "svc" →
           session_projects w' !! other = session_projects ui_projects !! other)
      ∧ file w' = Some (records <$> session_projects w')
      ∧ ((∀ name, name ∈ ["svc"; "web"]
                  ↔ is_Some (session_projects ui_projects !! name)) →
         match current_project w' with
         | None => session_projects w' = ∅
         | Some name => name ≠ "svc" ∧ is_Some (session_projects w' !! name)
         end).
Proof.
  split.
  - apply (delete_project_button_outcomes ui_projects ["svc"; "web"] "web" "svc"
             (Frame [mkEntry "timeout" "30"]));
      [reflexivity | discriminate | reflexivity | discriminate].
  - apply (delete_project_button_outcomes ui_projects ["svc"; "web"] "svc" "svc"
             (Frame [mkEntry "timeout" "30"]));
      [reflexivity | discriminate | reflexivity | reflexivity].
Defined.

(** ** The selection names a project of the session *)

Lemma current_ok_same_selection (w w' : World) :
  same_selection w w' → current_ok w → current_ok w'.
Proof.
  intros [Hcur Hdom] Hok. unfold current_ok in *. rewrite Hcur.
  destruct (current_project w) as [cur|]; [|done].
  by rewrite <- elem_of_dom, Hdom, elem_of_dom.
Qed.

Lemma current_ok_deleted (w : World) (project_names : list string) (cur : string) :
  (∀ name, name ∈ project_names ↔ is_Some (session_projects w !! name)) →
  current_ok (deleted w project_names cur).
Proof.
  intros Hnames. pose proof (deleted_selection w project_names cur Hnames) as H.
  unfold current_ok.
  destruct (current_project (deleted w project_names cur)); [|done].
  by destruct H.
Qed.

(** X23. When the selection is empty or names a project of the session, it
    still is or does after any operation on entries, after the creation of
    a project and after the deletion of the selected project (the names
    handed to the deletion being those of the session projects). *)
Theorem current_ok_kept (w : World) (Hok : current_ok w) :
  (∀ op, current_ok (step w op))
  ∧ (∀ name, current_ok (create_project_button name w).2)
  ∧ (∀ project_names confirm_project,
       (∀ name, name ∈ project_names ↔ is_Some (session_projects w !! name)) →
       current_ok (delete_project_button project_names confirm_project w).2).
Proof.
  split_and!.
  - intros op. apply (current_ok_same_selection w); [|done].
    destruct (api_same_selection w) as (Hset & Hdelete & Hbset & Hbdelete).
    destruct (ui_same_selection w) as (Hadd & Hedit & Hdel & Hbadd & Hbdel).
    destruct op; simpl; auto.
  - intros name. rewrite create_project_button_eq.
    case_bool_decide; [|done].
    destruct (session_projects w !! name) eqn:E; [done|].
    unfold current_ok. simpl. rewrite lookup_insert_eq. by eexists.
  - intros project_names confirm_project Hnames.
    destruct (current_project w) as [cur|] eqn:Hcur.
    + destruct (decide (cur = "")) as [->|Hname].
      * unfold delete_project_button, mbind, M_bind, get_current_project.
        rewrite Hcur. exact Hok.
      * assert (Hsome : is_Some (session_projects w !! cur)).
        { unfold current_ok in Hok. by rewrite Hcur in Hok. }
        destruct Hsome as [df Hdf].
        rewrite (delete_project_button_eq w _ _ cur df) by done.
        case_bool_decide; [|done]. by apply current_ok_deleted.
    + unfold delete_project_button, mbind, M_bind, get_current_project.
      rewrite Hcur. exact Hok.
Qed.

Lemma current_ok_kept_witness :
  current_ok (step ui_projects (UiBatchAdd [mkEntry "host" "h"]))
  ∧ current_ok (create_project_button "db" ui_projects).2
  ∧ current_ok (delete_project_button ["svc"; "web"] "svc" ui_projects).2.
Proof.
  destruct (current_ok_kept ui_projects) as (Hstep & Hcreate & Hdelete).
  - compute_done.
  - split_and!; [apply Hstep | apply Hcreate | apply Hdelete].
    intros name. rewrite <- elem_of_dom.
    replace (dom (session_projects ui_projects))
      with (list_to_set ["svc"; "web"] : gset string) by compute_done.
    by rewrite elem_of_list_to_set.
Defined.

(** ** Pagination *)

Section pagination.
Context {A : Type}.
Implicit Types (l : list A) (n i size : nat).

Lemma py_slice_nat l n size :
  py_slice l (Z.of_nat n) (Z.of_nat n + Z.of_nat size) = take size (drop n l).
Proof.
  unfold py_slice, slice_index. rewrite !decide_False by lia.
  destruct (decide (n ≤ length l)%nat) as [Hn|Hn].
  - rewrite (Z.min_l (Z.of_nat n)) by lia. rewrite Nat2Z.id.
    destruct (decide (n + size ≤ length l)%nat).
    + rewrite Z.min_l by lia. f_equal. lia.
    + rewrite Z.min_r by lia.
      rewrite !take_ge; [done|rewrite length_drop; lia..].
  - rewrite !Z.min_r by lia. rewrite Nat2Z.id.
    rewrite (drop_ge l n), (drop_ge l (length l)) by lia.
    by rewrite !take_nil.
Qed.

Lemma chunks_cover size n l :
  (0 < size)%nat → (length l ≤ n * size)%nat →
  mjoin ((λ i, take size (drop (i * size) l)) <$> seq 0 n) = l.
Proof.
  intros Hsize. revert l. induction n as [|n IH]; intros l Hlen.
  - destruct l; [done|]. simpl in Hlen. lia.
  - rewrite <- cons_seq, <- fmap_S_seq, fmap_cons, <- list_fmap_compose.
    simpl. transitivity (take size l ++ drop size l); [|apply take_drop].
    f_equal.
    etransitivity; [|apply (IH (drop size l)); rewrite length_drop; lia].
    f_equal. apply list_fmap_ext. intros _ i _. simpl.
    by rewrite drop_drop.
Qed.
End pagination.

Lemma get_paginated_data_page (df : DataFrame) (i size : nat) :
  records (get_paginated_data df (Z.of_nat i + 1) (Z.of_nat size))
  = take size (drop (i * size) (records df)).
Proof.
  destruct df as [|rows]; simpl.
  - by rewrite drop_nil, take_nil.
  - replace ((Z.of_nat i + 1 - 1) * Z.of_nat size)%Z
      with (Z.of_nat (i * size)) by lia.
    apply py_slice_nat.
Qed.

Lemma total_pages_bounds (df : DataFrame) (page_size : Z) :
  (0 < page_size)%Z →
  (0 ≤ total_pages df page_size)%Z
  ∧ (page_size * total_pages df page_size
     ≤ Z.of_nat (length (records df)) + page_size - 1)%Z
  ∧ (Z.of_nat (length (records df)) ≤ page_size * total_pages df page_size)%Z.
Proof.
  intros Hsize. unfold total_pages.
  set (a := (Z.of_nat (length (records df)) + page_size - 1)%Z).
  pose proof (Z.div_mod a page_size ltac:(lia)) as Hdiv.
  pose proof (Z.mod_pos_bound a page_size Hsize) as Hmod.
  split_and!; [apply Z.div_pos; lia | lia | lia].
Qed.

(** X24. For a positive page size, the pages 1 to [total_pages], one after
    the other, are the rows of the frame: every row is on exactly one page
    and the order is kept. *)
Theorem pages_cover_rows
    (df : DataFrame) (page_size : Z) (Hsize : (0 < page_size)%Z) :
  mjoin ((λ page, records (get_paginated_data df page page_size))
           <$> seqZ 1 (total_pages df page_size))
  = records df.
Proof.
  destruct (total_pages_bounds df page_size Hsize) as (Hpos & _ & Hcover).
  unfold seqZ. rewrite <- list_fmap_compose.
  rewrite <- (Z2Nat.id page_size) in * by lia.
  set (size := Z.to_nat page_size) in *.
  erewrite list_fmap_ext;
    [|intros i n _; simpl; apply get_paginated_data_page].
  apply chunks_cover; [lia|]. nia.
Qed.

Lemma pages_cover_rows_witness :
  mjoin ((λ page,
            records (get_paginated_data
                       (Frame [mkEntry "a" "1"; mkEntry "b" "2"; mkEntry "c" "3"])
                       page 2))
           <$> seqZ 1 (total_pages
                         (Frame [mkEntry "a" "1"; mkEntry "b" "2"; mkEntry "c" "3"])
                         2))
  = [mkEntry "a" "1"; mkEntry "b" "2"; mkEntry "c" "3"].
Proof.
  apply (pages_cover_rows
           (Frame [mkEntry "a" "1"; mkEntry "b" "2"; mkEntry "c" "3"]) 2).
  lia.
Defined.

(** X25. For a positive page size and a page number from 1 on: a page
    before the last one holds [page_size] rows, the last page holds at least
    one row and at most [page_size], and a page after the last one holds
    none. *)
Theorem page_lengths
    (df : DataFrame) (page page_size : Z)
    (Hsize : (0 < page_size)%Z) (Hpage : (1 ≤ page)%Z) :
  let n := Z.of_nat (length (records (get_paginated_data df page page_size))) in
  ((page < total_pages df page_size)%Z → n = page_size)
  ∧ (page = total_pages df page_size → (0 < n ≤ page_size)%Z)
  ∧ ((total_pages df page_size < page)%Z → n = 0%Z).
Proof.
  destruct (total_pages_bounds df page_size Hsize) as (Hpos & Hlow & Hcover).
  cbv zeta.
  replace page with (Z.of_nat (Z.to_nat (page - 1)) + 1)%Z in * by lia.
  rewrite <- (Z2Nat.id page_size) in * by lia.
  set (size := Z.to_nat page_size) in *. set (i := Z.to_nat (page - 1)) in *.
  rewrite get_paginated_data_page, length_take, length_drop.
  set (len := length (records df)) in *.
  set (total := total_pages df (Z.of_nat size)) in *.
  split_and!; intros Hcase; nia.
Qed.

Lemma page_lengths_witness :
  let df := Frame [mkEntry "a" "1"; mkEntry "b" "2"; mkEntry "c" "3"] in
  Z.of_nat (length (records (get_paginated_data df 1 2))) = 2%Z
  ∧ (0 < Z.of_nat (length (records (get_paginated_data df 2 2))) ≤ 2)%Z
  ∧ Z.of_nat (length (records (get_paginated_data df 3 2))) = 0%Z.
Proof.
  cbv zeta. split; [|split].
  - destruct (page_lengths
                (Frame [mkEntry "a" "1"; mkEntry "b" "2"; mkEntry "c" "3"]) 1 2
                ltac:(lia) ltac:(lia)) as (Hfull & _ & _).
    apply Hfull. reflexivity.
  - destruct (page_lengths
                (Frame [mkEntry "a" "1"; mkEntry "b" "2"; mkEntry "c" "3"]) 2 2
                ltac:(lia) ltac:(lia)) as (_ & Hlast & _).
    apply Hlast. reflexivity.
  - destruct (page_lengths
                (Frame [mkEntry "a" "1"; mkEntry "b" "2"; mkEntry "c" "3"]) 3 2
                ltac:(lia) ltac:(lia)) as (_ & _ & Hafter).
    apply Hafter. reflexivity.
Defined.
